(** * The statistics engine of [src/src/statistics-engine.py]

    A shallow embedding of the class [StatisticsEngine]: the pipeline
    [analyze] (descriptive statistics, normality, homogeneity, choice of the
    omnibus test, effect size, post-hoc comparisons) and the formulas it
    computes by hand (Welch's ANOVA, Tukey HSD, Games-Howell, Dunn, the effect
    sizes).

    The engine computes on NumPy [float64] values.  The embedding is written
    once, over the interface [Number] of the arithmetic the source uses, and
    read at two instances:
    - [float_Number], IEEE 754 binary64 (Rocq's primitive floats): the values
      the program computes, with infinities and not-a-number, evaluated by
      the kernel;
    - [R_Number], the real numbers: the idealised reading in which the
      inequalities between p-values are stated.

    SciPy's tests and distribution functions, and NumPy's order statistics,
    are not code of the repository: they are the fields of the records
    [stats.t] and [np.t], and the theorems about the engine hold for
    whatever they return.  A test of SciPy may raise; Python exceptions are
    the type [result]. *)

From Stdlib Require Import String Ascii.
From Stdlib Require Import List ZArith Bool Lia.
From Stdlib Require Import Reals Lra.
From Stdlib Require Import Floats.
From Stdlib Require DecimalString.
Import ListNotations.

Set Implicit Arguments.
(* Decimal literals denote the nearest binary64 value, as in Python. *)
Set Warnings "-inexact-float".

(** ** Python exceptions *)

Inductive exn : Type :=
| ValueError (msg : string)
| TypeError (msg : string)
| IndexError (msg : string)
| ZeroDivisionError (msg : string)
| UnboundLocalError (msg : string).

(** [str(e)] *)
Definition str (e : exn) : string :=
  match e with
  | ValueError m | TypeError m | IndexError m
  | ZeroDivisionError m | UnboundLocalError m => m
  end.

Inductive result (A : Type) : Type :=
| Ok (a : A)
| Raise (e : exn).
Arguments Ok {A} a.
Arguments Raise {A} e.

Definition bind {A B : Type} (m : result A) (k : A -> result B) : result B :=
  match m with
  | Ok a => k a
  | Raise e => Raise e
  end.

Declare Scope py_scope.
Delimit Scope py_scope with py.
Notation "x <- m ;; k" := (bind m (fun x => k))
  (at level 61, m at next level, right associativity) : py_scope.
Notation "' pat <- m ;; k" := (bind m (fun x => match x with pat => k end))
  (at level 61, pat pattern, m at next level, right associativity) : py_scope.
Open Scope py_scope.

(** A [for] loop whose body may raise, collecting one value per iteration. *)
Fixpoint mapM {A B : Type} (f : A -> result B) (l : list A) : result (list B) :=
  match l with
  | [] => Ok []
  | a :: l' => b <- f a ;; bs <- mapM f l' ;; Ok (b :: bs)
  end.

(** A [for] loop that threads the local variables [s] through its body. *)
Fixpoint foldM {A S : Type} (f : S -> A -> result S) (l : list A) (s : S)
  : result S :=
  match l with
  | [] => Ok s
  | a :: l' => s' <- f s a ;; foldM f l' s'
  end.

(** [len(x)], a Python [int] *)
Definition len {A : Type} (x : list A) : Z := Z.of_nat (length x).

(** [sub in s] on strings *)
Definition contains (sub s : string) : bool :=
  match String.index 0 sub s with
  | Some _ => true
  | None => false
  end.

(** ** The arithmetic of the source *)

(** What the engine uses of [float64]: conversion from [int], the four
    operations, [np.sqrt], [abs] and the comparisons [<], [<=], [==]. *)
Class Number (num : Type) : Type := {
  of_Z : Z -> num;
  add : num -> num -> num;
  sub : num -> num -> num;
  mul : num -> num -> num;
  div : num -> num -> num;
  sqrt : num -> num;
  abs : num -> num;
  ltb : num -> num -> bool;
  leb : num -> num -> bool;
  eqb : num -> num -> bool
}.

Declare Scope num_scope.
Delimit Scope num_scope with num.
Notation "x + y" := (add x y) : num_scope.
Notation "x - y" := (sub x y) : num_scope.
Notation "x * y" := (mul x y) : num_scope.
Notation "x / y" := (div x y) : num_scope.
Notation "x <? y" := (ltb x y) : num_scope.
Notation "x <=? y" := (leb x y) : num_scope.
Notation "x >? y" := (ltb y x) : num_scope.
Notation "x >=? y" := (leb y x) : num_scope.
Notation "x =? y" := (eqb x y) : num_scope.

(** The decimal literal [n/d] of the source ([0.05] is [dec 5 100]): the
    quotient of two exact integers, which in binary64 is the float nearest
    to the decimal, that is, the literal. *)
Definition dec {num : Type} `{Number num} (n d : Z) : num :=
  (of_Z n / of_Z d)%num.

(** [x**2], which NumPy computes as [x*x] *)
Definition sq {num : Type} `{Number num} (x : num) : num := (x * x)%num.

(** Python's [min(a, b)] and [max(a, b)]: the first argument unless the
    second is strictly smaller (larger). *)
Definition py_min {num : Type} `{Number num} (a b : num) : num :=
  if (b <? a)%num then b else a.
Definition py_max {num : Type} `{Number num} (a b : num) : num :=
  if (b >? a)%num then b else a.

(** Binary64.  [of_Z] is exact below 2^53. *)
Definition float_of_Z (z : Z) : float :=
  match z with
  | Z0 => PrimFloat.of_uint63 (Uint63.of_Z 0)
  | Zpos _ => PrimFloat.of_uint63 (Uint63.of_Z z)
  | Zneg _ => PrimFloat.opp (PrimFloat.of_uint63 (Uint63.of_Z (- z)))
  end.

#[export] Instance float_Number : Number float := {
  of_Z := float_of_Z;
  add := PrimFloat.add;
  sub := PrimFloat.sub;
  mul := PrimFloat.mul;
  div := PrimFloat.div;
  sqrt := PrimFloat.sqrt;
  abs := PrimFloat.abs;
  ltb := PrimFloat.ltb;
  leb := PrimFloat.leb;
  eqb := PrimFloat.eqb
}.

(** A float that is neither infinite nor not-a-number. *)
Definition is_finite (x : float) : bool :=
  negb (PrimFloat.is_nan x) && negb (PrimFloat.is_infinity x).

(** The real numbers. *)
Definition Rltb (x y : R) : bool := if Rlt_dec x y then true else false.
Definition Rleb (x y : R) : bool := if Rle_dec x y then true else false.
Definition Reqb (x y : R) : bool := if Req_dec_T x y then true else false.

#[export] Instance R_Number : Number R := {
  of_Z := IZR;
  add := Rplus;
  sub := Rminus;
  mul := Rmult;
  div := Rdiv;
  sqrt := R_sqrt.sqrt;
  abs := Rabs;
  ltb := Rltb;
  leb := Rleb;
  eqb := Reqb
}.

(** ** The libraries the engine calls *)

(** [scipy.stats].  A test returns its statistic and p-value, or raises; the
    distribution functions are total on floats. *)
Module stats.
Record t (num : Type) : Type := {
  shapiro : list num -> result (num * num);
  (** [stats.kstest(x, 'norm')] *)
  kstest_norm : list num -> result (num * num);
  skew : list num -> result num;
  kurtosis : list num -> result num;
  levene : list (list num) -> result (num * num);
  bartlett : list (list num) -> result (num * num);
  (** [stats.ttest_1samp(a, popmean)] *)
  ttest_1samp : list num -> num -> result (num * num);
  (** [stats.ttest_ind(a, b, equal_var=...)] *)
  ttest_ind : list num -> list num -> bool -> result (num * num);
  (** [stats.mannwhitneyu(x, y, alternative=...)], [None] when the keyword
      is not given *)
  mannwhitneyu : list num -> list num -> option string -> result (num * num);
  f_oneway : list (list num) -> result (num * num);
  kruskal : list (list num) -> result (num * num);
  rankdata : list num -> result (list num);
  (** [stats.norm.cdf(x)] *)
  norm_cdf : num -> num;
  (** [stats.t.cdf(x, df)] and [stats.t.ppf(q, df)] *)
  t_cdf : num -> num -> num;
  t_ppf : num -> num -> num;
  (** [stats.f.cdf(x, dfn, dfd)] *)
  f_cdf : num -> num -> num -> num
}.
End stats.

(** NumPy's order statistics, used by the descriptive stage only. *)
Module np.
Record t (num : Type) : Type := {
  median : list num -> result num;
  min : list num -> result num;
  max : list num -> result num;
  (** [np.percentile(a, q)] *)
  percentile : list num -> Z -> result num
}.
End np.

(** ** The request and the response *)

(** [data['options']], which the docstring of [analyze] lists. *)
Record Options (num : Type) : Type := {
  alpha : option num;
  confidence : option num
}.

(** The dictionary [data] passed to [analyze]; [labels] and [options] may be
    absent. *)
Record Request (num : Type) : Type := {
  groups : list (list num);
  labels : option (list string);
  options : option (Options num)
}.

(** One entry of [calculate_descriptive_stats]. *)
Module Descriptive.
Record t (num : Type) : Type := {
  label : string;
  n : Z;
  mean : num;
  median : num;
  std : num;
  se : num;
  min : num;
  max : num;
  q1 : num;
  q3 : num;
  iqr : num;
  ci95_lower : num;
  ci95_upper : num;
  (** [None] when the mean is 0 *)
  cv : option num
}.
End Descriptive.

(** The dictionary returned by [test_normality]. *)
Module Normality.
Record entry (num : Type) : Type := {
  label : string;
  test : string;
  statistic : num;
  p_value : num;
  is_normal : bool;
  skewness : num;
  kurtosis : num
}.
Record t (num : Type) : Type := {
  results : list (entry num);
  all_normal : bool
}.
End Normality.

(** The dictionary returned by [test_homogeneity]. *)
Module Homogeneity.
Record outcome (num : Type) : Type := {
  statistic : num;
  p_value : num
}.
Record detail (num : Type) : Type := {
  levene : outcome num;
  bartlett : outcome num
}.
Record t (num : Type) : Type := {
  results : option (detail num);
  equal_variance : bool
}.
End Homogeneity.

(** An effect size, and the dictionary returned by
    [perform_statistical_test]. *)
Module Test.
Record effect (num : Type) : Type := {
  value : num;
  magnitude : string
}.
Record t (num : Type) : Type := {
  test_type : string;
  statistic : num;
  p_value : num;
  significant : bool;
  effect_size : effect num
}.
End Test.

(** The dictionary returned by [tukey_hsd_pair], [games_howell_pair] and
    [dunn_test_pair]. *)
Module Pair.
Record t (num : Type) : Type := {
  p_value : num;
  ci_lower : num;
  ci_upper : num
}.
End Pair.

(** The dictionary returned by [perform_post_hoc]. *)
Module PostHoc.
Record comparison (num : Type) : Type := {
  group1 : string;
  group2 : string;
  mean_diff : num;
  p_value : num;
  adjusted_p : num;
  significant : bool;
  ci_lower : num;
  ci_upper : num
}.
Record t (num : Type) : Type := {
  method : string;
  comparisons : list (comparison num);
  bonferroni_alpha : num
}.
End PostHoc.

(** The successful response of [analyze].  The rendered texts
    ([interpretation], [summary], [message], [recommendation]) are formats of
    the fields kept here; formatting does not raise, and they are left
    out. *)
Record Analysis (num : Type) : Type := {
  descriptive : list (Descriptive.t num);
  normality : Normality.t num;
  homogeneity : Homogeneity.t num;
  test : Test.t num;
  post_hoc : option (PostHoc.t num)
}.

(** What [analyze] returns: [{'success': True, ...}] or
    [{'success': False, 'error': str(e)}]. *)
Inductive Response (num : Type) : Type :=
| Success (a : Analysis num)
| Failure (error : string).
Arguments Failure {num} error.

Definition success {num : Type} (r : Response num) : bool :=
  match r with
  | Success _ => true
  | Failure _ => false
  end.

(** The attributes of a [StatisticsEngine] object. *)
Record StatisticsEngine (num : Type) : Type := {
  significance_level : num;
  confidence_level : num
}.

(** ** The engine *)

Section Engine.

Context {num : Type} `{Number num}.

(** The libraries in scope. *)
Variable S : stats.t num.
Variable N : np.t num.

Local Open Scope num_scope.

(** *** NumPy and Python arithmetic *)

(** [np.sum(x)].  In binary64 the left-to-right sum is NumPy's for arrays
    of fewer than 8 elements (longer ones are summed pairwise, which rounds
    differently); over the reals it is the sum for every length. *)
Definition np_sum (x : list num) : num := fold_left add x (of_Z 0).

(** The builtin [sum(...)] of Python, which starts from the [int] 0. *)
Definition py_sum (x : list num) : num := fold_left add x (of_Z 0).

(** [np.mean(x)]: 0/0 on an empty array. *)
Definition np_mean (x : list num) : num := np_sum x / of_Z (len x).

(** [np.var(x, ddof=ddof)]: the divisor is [max(n - ddof, 0)]. *)
Definition np_var (x : list num) (ddof : Z) : num :=
  let arrmean := np_mean x in
  np_sum (map (fun xi => sq (xi - arrmean)) x)
  / of_Z (Z.max (len x - ddof) 0).

(** [np.std(x, ddof=ddof)] *)
Definition np_std (x : list num) (ddof : Z) : num := sqrt (np_var x ddof).

(** [np.concatenate(arrays)] raises on an empty list of arrays. *)
Definition np_concatenate (arrays : list (list num)) : result (list num) :=
  match arrays with
  | [] => Raise (ValueError "need at least one array to concatenate")
  | _ :: _ => Ok (List.concat arrays)
  end.

(** Element-wise operation on two arrays of the same length. *)
Definition map2 {A B C : Type} (f : A -> B -> C) (x : list A) (y : list B)
  : list C :=
  map (fun ab => f (fst ab) (snd ab)) (combine x y).

(** [a / b] on two Python [int]s *)
Definition int_truediv (a b : Z) : result num :=
  if (b =? 0)%Z then Raise (ZeroDivisionError "division by zero")
  else Ok (of_Z a / of_Z b).

(** [a / b] on two Python [float]s *)
Definition float_truediv (a b : num) : result num :=
  if b =? of_Z 0 then Raise (ZeroDivisionError "float division by zero")
  else Ok (a / b).

(** [l[i]] *)
Definition getitem {A : Type} (l : list A) (i : nat) : result A :=
  match nth_error l i with
  | Some a => Ok a
  | None => Raise (IndexError "list index out of range")
  end.

(** [StatisticsEngine()] *)
Definition __init__ : StatisticsEngine num :=
  {| significance_level := dec 5 100; confidence_level := dec 95 100 |}.

Variable self : StatisticsEngine num.

(** *** Descriptive statistics *)

Definition calculate_descriptive_stats
  (groups : list (list num)) (labels : list string)
  : result (list (Descriptive.t num)) :=
  mapM (fun gl : list num * string =>
    let (group, label) := gl in
    let n := len group in
    let mean := np_mean group in
    median <- np.median N group ;;
    let std := np_std group 1 in
    let se := std / sqrt (of_Z n) in
    let t_critical :=
      stats.t_ppf S ((of_Z 1 + confidence_level self) / of_Z 2)
                    (of_Z (n - 1)) in
    let ci_lower := mean - t_critical * se in
    let ci_upper := mean + t_critical * se in
    min <- np.min N group ;;
    max <- np.max N group ;;
    q1 <- np.percentile N group 25 ;;
    q3 <- np.percentile N group 75 ;;
    Ok {| Descriptive.label := label;
          Descriptive.n := n;
          Descriptive.mean := mean;
          Descriptive.median := median;
          Descriptive.std := std;
          Descriptive.se := se;
          Descriptive.min := min;
          Descriptive.max := max;
          Descriptive.q1 := q1;
          Descriptive.q3 := q3;
          Descriptive.iqr := q3 - q1;
          Descriptive.ci95_lower := ci_lower;
          Descriptive.ci95_upper := ci_upper;
          Descriptive.cv :=
            if negb (mean =? of_Z 0) then Some (std / mean * of_Z 100)
            else None |})
    (combine groups labels).

(** *** Normality *)

(** The body of the loop of [test_normality] for one sample. *)
Definition normality_entry (group : list num) (label : string)
  : result (Normality.entry num) :=
  let n := len group in
  '(statistic, p_value, test_name) <-
    (if (n <? 50)%Z then
       '(statistic, p_value) <- stats.shapiro S group ;;
       Ok (statistic, p_value, "Shapiro-Wilk"%string)
     else
       let standardized :=
         map (fun x => (x - np_mean group) / np_std group 1) group in
       '(statistic, p_value) <- stats.kstest_norm S standardized ;;
       Ok (statistic, p_value, "Kolmogorov-Smirnov"%string)) ;;
  let is_normal := p_value >? significance_level self in
  skewness <- stats.skew S group ;;
  kurtosis <- stats.kurtosis S group ;;
  Ok {| Normality.label := label;
        Normality.test := test_name;
        Normality.statistic := statistic;
        Normality.p_value := p_value;
        Normality.is_normal := is_normal;
        Normality.skewness := skewness;
        Normality.kurtosis := kurtosis |}.

Definition test_normality (groups : list (list num)) (labels : list string)
  : result (Normality.t num) :=
  foldM (fun (st : Normality.t num) (gl : list num * string) =>
    e <- normality_entry (fst gl) (snd gl) ;;
    Ok {| Normality.results := Normality.results st ++ [e];
          Normality.all_normal :=
            Normality.all_normal st && Normality.is_normal e |})
    (combine groups labels)
    {| Normality.results := []; Normality.all_normal := true |}.

(** *** Homogeneity of variance *)

Definition test_homogeneity (groups : list (list num)) (labels : list string)
  : result (Homogeneity.t num) :=
  if (len groups <? 2)%Z then
    Ok {| Homogeneity.results := None; Homogeneity.equal_variance := true |}
  else
    '(levene_stat, levene_p) <- stats.levene S groups ;;
    '(bartlett_stat, bartlett_p) <- stats.bartlett S groups ;;
    let equal_variance := levene_p >? significance_level self in
    Ok {| Homogeneity.results :=
            Some {| Homogeneity.levene :=
                      {| Homogeneity.statistic := levene_stat;
                         Homogeneity.p_value := levene_p |};
                    Homogeneity.bartlett :=
                      {| Homogeneity.statistic := bartlett_stat;
                         Homogeneity.p_value := bartlett_p |} |};
          Homogeneity.equal_variance := equal_variance |}.

(** *** Effect sizes *)

(** The three-step magnitude of Cohen's d and of the rank-biserial r: each
    [if] overwrites the one before. *)
Definition magnitude4 (x : num) (small medium large : num) : string :=
  let magnitude := "negligible"%string in
  let magnitude := if abs x >=? small then "small"%string else magnitude in
  let magnitude := if abs x >=? medium then "medium"%string else magnitude in
  let magnitude := if abs x >=? large then "large"%string else magnitude in
  magnitude.

(** The two-step magnitude of eta, omega and epsilon squared. *)
Definition magnitude3 (x : num) : string :=
  let magnitude := "small"%string in
  let magnitude := if x >=? dec 6 100 then "medium"%string else magnitude in
  let magnitude := if x >=? dec 14 100 then "large"%string else magnitude in
  magnitude.

Definition calculate_cohens_d (group1 group2 : list num) : Test.effect num :=
  let n1 := len group1 in
  let n2 := len group2 in
  let mean1 := np_mean group1 in
  let mean2 := np_mean group2 in
  let var1 := np_var group1 1 in
  let var2 := np_var group2 1 in
  let pooled_std :=
    sqrt ((of_Z (n1 - 1) * var1 + of_Z (n2 - 1) * var2)
          / of_Z (n1 + n2 - 2)) in
  let d := (mean1 - mean2) / pooled_std in
  {| Test.value := d;
     Test.magnitude := magnitude4 d (dec 2 10) (dec 5 10) (dec 8 10) |}.

Definition calculate_cohens_d_one_sample (group : list num) (mu : num)
  : Test.effect num :=
  let mean := np_mean group in
  let std := np_std group 1 in
  let d := (mean - mu) / std in
  {| Test.value := d;
     Test.magnitude := magnitude4 d (dec 2 10) (dec 5 10) (dec 8 10) |}.

Definition calculate_eta_squared (groups : list (list num)) (f_stat : num)
  : result (Test.effect num) :=
  all_data <- np_concatenate groups ;;
  let grand_mean := np_mean all_data in
  let ss_between :=
    py_sum (map (fun g => of_Z (len g) * sq (np_mean g - grand_mean))
                groups) in
  let ss_total := np_sum (map (fun x => sq (x - grand_mean)) all_data) in
  let eta_sq := ss_between / ss_total in
  Ok {| Test.value := eta_sq; Test.magnitude := magnitude3 eta_sq |}.

(** The omega-squared formula applied to an F statistic. *)
Definition omega_of (groups : list (list num)) (f_stat : num)
  : result num :=
  let k := len groups in
  let n_total := fold_left Z.add (map len groups) 0%Z in
  let df_between := (k - 1)%Z in
  let df_within := (n_total - k)%Z in
  ratio <- int_truediv (df_within + 1) df_between ;;
  let omega_sq := (f_stat - of_Z 1) / (f_stat + ratio) in
  Ok (py_max (of_Z 0) omega_sq).

Definition calculate_omega_squared (groups : list (list num))
  : result (Test.effect num) :=
  '(f_stat, _) <- stats.f_oneway S groups ;;
  omega_sq <- omega_of groups f_stat ;;
  Ok {| Test.value := omega_sq; Test.magnitude := magnitude3 omega_sq |}.

Definition calculate_rank_biserial (group1 group2 : list num)
  : result (Test.effect num) :=
  '(u_stat, _) <- stats.mannwhitneyu S group1 group2 None ;;
  let n1 := len group1 in
  let n2 := len group2 in
  let r := of_Z 1 - (of_Z 2 * u_stat) / of_Z (n1 * n2) in
  Ok {| Test.value := r;
        Test.magnitude := magnitude4 r (dec 1 10) (dec 3 10) (dec 5 10) |}.

Definition calculate_epsilon_squared (groups : list (list num)) (h_stat : num)
  : Test.effect num :=
  let n_total := fold_left Z.add (map len groups) 0%Z in
  let epsilon_sq := h_stat / of_Z (n_total - 1) in
  {| Test.value := epsilon_sq; Test.magnitude := magnitude3 epsilon_sq |}.

(** *** Welch's ANOVA *)

Definition welch_anova (groups : list (list num)) : num * num :=
  let k := len groups in
  let n_i := map len groups in
  let mean_i := map np_mean groups in
  let var_i := map (fun g => np_var g 1) groups in
  let w_i := map2 (fun n v => of_Z n / v) n_i var_i in
  let w_sum := np_sum w_i in
  let grand_mean := np_sum (map2 mul w_i mean_i) / w_sum in
  let numerator :=
    np_sum (map2 (fun w m => w * sq (m - grand_mean)) w_i mean_i)
    / of_Z (k - 1) in
  let lambda_val :=
    of_Z 3
    * np_sum (map2 (fun w n => sq (of_Z 1 - w / w_sum) / of_Z (n - 1))
                   w_i n_i)
    / of_Z (k * k - 1) in
  let denominator :=
    of_Z 1 + (of_Z (2 * (k - 2)) * lambda_val) / of_Z (k * k - 1) in
  let f_stat := numerator / denominator in
  let df1 := (k - 1)%Z in
  let df2 := of_Z 1 / lambda_val in
  let p_value := of_Z 1 - stats.f_cdf S f_stat (of_Z df1) df2 in
  (f_stat, p_value).

(** *** The omnibus test *)

Definition perform_statistical_test
  (groups : list (list num)) (labels : list string)
  (is_normal equal_variance : bool) : result (Test.t num) :=
  '(test_type, t_stat, p_value, effect_size) <-
    match groups with
    | [g0] =>
        '(t_stat, p_value) <- stats.ttest_1samp S g0 (of_Z 0) ;;
        let effect_size := calculate_cohens_d_one_sample g0 (of_Z 0) in
        Ok ("One-sample t-test"%string, t_stat, p_value, effect_size)
    | [g0; g1] =>
        if is_normal then
          '(test_type, t_stat, p_value) <-
            (if equal_variance then
               '(t_stat, p_value) <- stats.ttest_ind S g0 g1 true ;;
               Ok ("Independent t-test"%string, t_stat, p_value)
             else
               '(t_stat, p_value) <- stats.ttest_ind S g0 g1 false ;;
               Ok ("Welch's t-test"%string, t_stat, p_value)) ;;
          let effect_size := calculate_cohens_d g0 g1 in
          Ok (test_type, t_stat, p_value, effect_size)
        else
          '(u_stat, p_value) <-
            stats.mannwhitneyu S g0 g1 (Some "two-sided"%string) ;;
          effect_size <- calculate_rank_biserial g0 g1 ;;
          Ok ("Mann-Whitney U test"%string, u_stat, p_value, effect_size)
    | _ =>
        if is_normal then
          if equal_variance then
            '(f_stat, p_value) <- stats.f_oneway S groups ;;
            effect_size <- calculate_eta_squared groups f_stat ;;
            Ok ("One-way ANOVA"%string, f_stat, p_value, effect_size)
          else
            let '(f_stat, p_value) := welch_anova groups in
            effect_size <- calculate_omega_squared groups ;;
            Ok ("Welch's ANOVA"%string, f_stat, p_value, effect_size)
        else
          '(h_stat, p_value) <- stats.kruskal S groups ;;
          let effect_size := calculate_epsilon_squared groups h_stat in
          Ok ("Kruskal-Wallis H test"%string, h_stat, p_value, effect_size)
    end ;;
  let significant := p_value <? significance_level self in
  Ok {| Test.test_type := test_type;
        Test.statistic := t_stat;
        Test.p_value := p_value;
        Test.significant := significant;
        Test.effect_size := effect_size |}.

(** *** Post-hoc comparisons *)

(** The pooled mean square error of [tukey_hsd_pair]. *)
Definition tukey_mse (k : Z) (all_groups : list (list num)) (all_data : list num)
  : num :=
  let sse :=
    py_sum (map (fun g => np_sum (map (fun x => sq (x - np_mean g)) g))
                all_groups) in
  let df_error := (len all_data - k)%Z in
  sse / of_Z df_error.

Definition tukey_hsd_pair (group1 group2 : list num) (k : Z)
  (all_groups : list (list num)) : result (Pair.t num) :=
  let n1 := len group1 in
  let n2 := len group2 in
  let mean1 := np_mean group1 in
  let mean2 := np_mean group2 in
  all_data <- np_concatenate all_groups ;;
  let mse := tukey_mse k all_groups all_data in
  inv_n1 <- int_truediv 1 n1 ;;
  inv_n2 <- int_truediv 1 n2 ;;
  let se := sqrt (mse * (inv_n1 + inv_n2) / of_Z 2) in
  let q := abs (mean1 - mean2) / se in
  let p_value := of_Z 1 - stats.norm_cdf S (q / sqrt (of_Z 2)) in
  let q_critical := dec 35 10 in
  let margin := q_critical * se in
  Ok {| Pair.p_value := p_value;
        Pair.ci_lower := (mean1 - mean2) - margin;
        Pair.ci_upper := (mean1 - mean2) + margin |}.

Definition games_howell_pair (group1 group2 : list num) : Pair.t num :=
  let n1 := len group1 in
  let n2 := len group2 in
  let mean1 := np_mean group1 in
  let mean2 := np_mean group2 in
  let var1 := np_var group1 1 in
  let var2 := np_var group2 1 in
  let se := sqrt (var1 / of_Z n1 + var2 / of_Z n2) in
  let t := abs (mean1 - mean2) / se in
  let df :=
    sq (var1 / of_Z n1 + var2 / of_Z n2)
    / (sq (var1 / of_Z n1) / of_Z (n1 - 1)
       + sq (var2 / of_Z n2) / of_Z (n2 - 1)) in
  let p_value := of_Z 2 * (of_Z 1 - stats.t_cdf S t df) in
  let t_critical :=
    stats.t_ppf S (of_Z 1 - significance_level self / of_Z 2) df in
  let margin := t_critical * se in
  {| Pair.p_value := p_value;
     Pair.ci_lower := (mean1 - mean2) - margin;
     Pair.ci_upper := (mean1 - mean2) + margin |}.

(** The two mean ranks [rank1], [rank2] of [dunn_test_pair]: the means of
    the slices [ranks[:n1]] and [ranks[n1:n1+n2]] of the pooled ranks. *)
Definition dunn_mean_ranks (n1 n2 : nat) (ranks : list num) : num * num :=
  (np_mean (firstn n1 ranks), np_mean (firstn n2 (skipn n1 ranks))).

(** The statistic [z] of [dunn_test_pair]. *)
Definition dunn_z (group1 group2 : list num) (all_groups : list (list num))
  : result num :=
  all_data <- np_concatenate all_groups ;;
  let n_total := len all_data in
  ranks <- stats.rankdata S all_data ;;
  let n1 := len group1 in
  let n2 := len group2 in
  let '(rank1, rank2) :=
    dunn_mean_ranks (length group1) (length group2) ranks in
  inv_n1 <- int_truediv 1 n1 ;;
  inv_n2 <- int_truediv 1 n2 ;;
  let se :=
    sqrt ((of_Z (n_total * (n_total + 1)) / of_Z 12) * (inv_n1 + inv_n2)) in
  Ok (abs (rank1 - rank2) / se).

Definition dunn_test_pair (group1 group2 : list num)
  (all_groups : list (list num)) : result (Pair.t num) :=
  z <- dunn_z group1 group2 all_groups ;;
  let p_value := of_Z 2 * (of_Z 1 - stats.norm_cdf S z) in
  Ok {| Pair.p_value := p_value;
        Pair.ci_lower := of_Z 0;
        Pair.ci_upper := of_Z 0 |}.

(** The pairs [(i, j)], [i < j < n], in the order of the two nested loops. *)
Definition pairs (n : nat) : list (nat * nat) :=
  flat_map (fun i => map (fun j => (i, j)) (seq (i + 1) (n - (i + 1))))
           (seq 0 n).

(** The local variables of [perform_post_hoc] that the loop assigns:
    [method] and [n_comparisons] are unbound until a pair is compared. *)
Record post_hoc_locals : Type := {
  loc_comparisons : list (PostHoc.comparison num);
  loc_method : option string;
  loc_n_comparisons : option num
}.

(** The choice of the pairwise method; [None] is the [continue]. *)
Definition post_hoc_pair (groups : list (list num)) (test_type : string)
  (equal_variance : bool) (group1 group2 : list num)
  : result (option (Pair.t num * string)) :=
  let n_groups := len groups in
  if contains "ANOVA" test_type then
    if equal_variance then
      result <- tukey_hsd_pair group1 group2 n_groups groups ;;
      Ok (Some (result, "Tukey HSD"%string))
    else
      Ok (Some (games_howell_pair group1 group2, "Games-Howell"%string))
  else if contains "Kruskal" test_type then
    result <- dunn_test_pair group1 group2 groups ;;
    Ok (Some (result, "Dunn's test"%string))
  else Ok None.

(** The body of the inner loop. *)
Definition post_hoc_step (groups : list (list num)) (labels : list string)
  (test_type : string) (equal_variance : bool)
  (st : post_hoc_locals) (ij : nat * nat) : result post_hoc_locals :=
  let n_groups := len groups in
  group1 <- getitem groups (fst ij) ;;
  group2 <- getitem groups (snd ij) ;;
  label1 <- getitem labels (fst ij) ;;
  label2 <- getitem labels (snd ij) ;;
  chosen <- post_hoc_pair groups test_type equal_variance group1 group2 ;;
  match chosen with
  | None => Ok st
  | Some (result, method) =>
      let n_comparisons := of_Z (n_groups * (n_groups - 1)) / of_Z 2 in
      let adjusted_p := py_min (Pair.p_value result * n_comparisons) (of_Z 1) in
      Ok {| loc_comparisons :=
              loc_comparisons st ++
              [ {| PostHoc.group1 := label1;
                   PostHoc.group2 := label2;
                   PostHoc.mean_diff := np_mean group1 - np_mean group2;
                   PostHoc.p_value := Pair.p_value result;
                   PostHoc.adjusted_p := adjusted_p;
                   PostHoc.significant :=
                     adjusted_p <? significance_level self;
                   PostHoc.ci_lower := Pair.ci_lower result;
                   PostHoc.ci_upper := Pair.ci_upper result |} ];
            loc_method := Some method;
            loc_n_comparisons := Some n_comparisons |}
  end.

(** [method] and [n_comparisons] are assigned in the loop only: when no
    pair assigns them the [return] reads an unbound local.  The message is
    that of CPython 3.11, the interpreter of the Pyodide 0.24.1 that the
    build pins (3.10 and earlier say "local variable 'method' referenced
    before assignment"). *)
Definition perform_post_hoc (groups : list (list num)) (labels : list string)
  (test_type : string) (is_normal equal_variance : bool)
  : result (PostHoc.t num) :=
  let n_groups := len groups in
  st <- foldM (post_hoc_step groups labels test_type equal_variance)
              (pairs (length groups))
              {| loc_comparisons := [];
                 loc_method := None;
                 loc_n_comparisons := None |} ;;
  match loc_method st, loc_n_comparisons st with
  | Some method, Some n_comparisons =>
      bonferroni_alpha <-
        float_truediv (significance_level self) n_comparisons ;;
      Ok {| PostHoc.method := method;
            PostHoc.comparisons := loc_comparisons st;
            PostHoc.bonferroni_alpha := bonferroni_alpha |}
  | _, _ =>
      Raise (UnboundLocalError
               "cannot access local variable 'method' where it is not associated with a value")
  end.

(** *** The pipeline *)

(** The labels used when the request gives none. *)
Definition default_labels (n : nat) : list string :=
  map (fun i =>
         ("그룹 " ++
          DecimalString.NilEmpty.string_of_uint (Nat.to_uint (i + 1)))%string)
      (seq 0 n).

(** The body of the [try] block of [analyze]. *)
Definition analyze_body (data : Request num) : result (Analysis num) :=
  let groups := groups data in
  let labels :=
    match labels data with
    | Some l => l
    | None => default_labels (length groups)
    end in
  descriptive_stats <- calculate_descriptive_stats groups labels ;;
  normality_results <- test_normality groups labels ;;
  homogeneity_results <- test_homogeneity groups labels ;;
  test_results <-
    perform_statistical_test groups labels
      (Normality.all_normal normality_results)
      (Homogeneity.equal_variance homogeneity_results) ;;
  post_hoc_results <-
    (if (len groups >? 2)%Z && Test.significant test_results then
       r <- perform_post_hoc groups labels
              (Test.test_type test_results)
              (Normality.all_normal normality_results)
              (Homogeneity.equal_variance homogeneity_results) ;;
       Ok (Some r)
     else Ok None) ;;
  Ok {| descriptive := descriptive_stats;
        normality := normality_results;
        homogeneity := homogeneity_results;
        test := test_results;
        post_hoc := post_hoc_results |}.

Definition analyze (data : Request num) : Response num :=
  match analyze_body data with
  | Ok a => Success a
  | Raise e => Failure (str e)
  end.

End Engine.

(** ** The formulas of the specification

    Second definitions, written from the words of the specification, with
    which the code is compared. *)

Section SpecFormulas.

Context {num : Type} `{Number num}.
Variable S : stats.t num.

Local Open Scope num_scope.

(** The sum of [f i] over the indices [i < k], in increasing order. *)
Definition big_sum (k : nat) (f : nat -> num) : num :=
  fold_left (fun acc i => acc + f i) (seq 0 k) (of_Z 0).

Section Welch.

(** *** Welch's ANOVA, as the specification words it

    Group by group: [n i], [mean i] and [var i] are the size, the mean and
    the sample variance (divisor [n - 1]) of group [i]. *)

Variable groups : list (list num).

Definition group_n (i : nat) : Z := len (nth i groups []).
Definition group_mean (i : nat) : num := np_mean (nth i groups []).
Definition group_var (i : nat) : num := np_var (nth i groups []) 1.

(** w_i = n_i / var_i *)
Definition welch_w (i : nat) : num := of_Z (group_n i) / group_var i.

(** W = the sum of the w_i *)
Definition welch_W : num := big_sum (length groups) welch_w.

(** grand mean = (the sum of w_i * mean_i) / W *)
Definition welch_grand_mean : num :=
  big_sum (length groups) (fun i => welch_w i * group_mean i) / welch_W.

(** numerator = (the sum of w_i (mean_i - grand_mean)^2) / (k - 1) *)
Definition welch_numerator : num :=
  big_sum (length groups)
          (fun i => welch_w i * sq (group_mean i - welch_grand_mean))
  / of_Z (len groups - 1).

(** lambda = 3 (the sum of (1 - w_i/W)^2 / (n_i - 1)) / (k^2 - 1) *)
Definition welch_lambda : num :=
  of_Z 3
  * big_sum (length groups)
            (fun i => sq (of_Z 1 - welch_w i / welch_W)
                      / of_Z (group_n i - 1))
  / of_Z (len groups * len groups - 1).

(** denominator = 1 + 2 (k - 2) lambda / (k^2 - 1) *)
Definition welch_denominator : num :=
  of_Z 1
  + (of_Z (2 * (len groups - 2)) * welch_lambda)
    / of_Z (len groups * len groups - 1).

(** F = numerator / denominator, df1 = k - 1, df2 = 1 / lambda *)
Definition welch_F : num := welch_numerator / welch_denominator.
Definition welch_df1 : Z := (len groups - 1)%Z.
Definition welch_df2 : num := of_Z 1 / welch_lambda.

(** p = the upper tail of the F distribution at (df1, df2), that is,
    one minus its cdf *)
Definition welch_p : num :=
  of_Z 1 - stats.f_cdf S welch_F (of_Z welch_df1) welch_df2.

End Welch.

(** *** The Tukey p-value, as the specification words it

    MSE = pooled within-group sum of squares / (N - k),
    se = sqrt(MSE (1/n_i + 1/n_j) / 2), q = |mean_i - mean_j| / se and
    p = 2 (1 - Phi(q / sqrt 2)). *)

Definition within_ss (g : list num) : num :=
  np_sum (map (fun x => sq (x - np_mean g)) g).

Definition pooled_mse (groups : list (list num)) : num :=
  big_sum (length groups) (fun i => within_ss (nth i groups []))
  / of_Z (fold_left Z.add (map len groups) 0%Z - len groups).

Definition tukey_q (groups : list (list num)) (gi gj : list num) : num :=
  let se :=
    sqrt (pooled_mse groups
          * (of_Z 1 / of_Z (len gi) + of_Z 1 / of_Z (len gj))
          / of_Z 2) in
  abs (np_mean gi - np_mean gj) / se.

Definition tukey_p_claimed (groups : list (list num)) (gi gj : list num)
  : num :=
  of_Z 2 * (of_Z 1 - stats.norm_cdf S (tukey_q groups gi gj / sqrt (of_Z 2))).

(** *** Dunn's statistic, as the specification words it

    (The formulas are those of [dunn_test_manual] in
    [statistical-platform/test/validate-dunn-games-howell.py].) *)

(** The pooled ranks of group [i]: the slice of [ranks] at the position of
    the group in the concatenation. *)
Definition group_ranks (ranks : list num) (groups : list (list num))
  (i : nat) : list num :=
  firstn (length (nth i groups []))
         (skipn (length (List.concat (firstn i groups))) ranks).

Definition mean_rank (ranks : list num) (groups : list (list num)) (i : nat)
  : num :=
  np_mean (group_ranks ranks groups i).

(** The sum of t^3 - t over the groups of tied values, [t] the size of the
    group: each distinct value is counted at its first occurrence. *)
Fixpoint tie_term_from (seen rest all_data : list num) : Z :=
  match rest with
  | [] => 0%Z
  | x :: rest' =>
      let t := len (filter (fun y => y =? x) all_data) in
      let counted := existsb (fun y => y =? x) seen in
      ((if counted then 0 else if t >? 1 then t * t * t - t else 0)
       + tie_term_from (x :: seen) rest' all_data)%Z
  end.

Definition tie_term (all_data : list num) : Z :=
  tie_term_from [] all_data all_data.

(** S^2 = (N (N+1) (2N+1) / 6 - tie_term / 2) / (N - 1) when ties exist,
    N (N+1) / 12 otherwise. *)
Definition rank_variance (all_data : list num) : num :=
  let n := len all_data in
  if (tie_term all_data >? 0)%Z then
    (of_Z (n * (n + 1) * (2 * n + 1)) / of_Z 6
     - of_Z (tie_term all_data) / of_Z 2)
    / of_Z (n - 1)
  else of_Z (n * (n + 1)) / of_Z 12.

(** z = |meanRank_i - meanRank_j| / sqrt(S^2 (1/n_i + 1/n_j)) *)
Definition dunn_z_claimed (ranks : list num) (groups : list (list num))
  (i j : nat) : num :=
  let n_i := len (nth i groups []) in
  let n_j := len (nth j groups []) in
  abs (mean_rank ranks groups i - mean_rank ranks groups j)
  / sqrt (rank_variance (List.concat groups)
          * (of_Z 1 / of_Z n_i + of_Z 1 / of_Z n_j)).

End SpecFormulas.

(** ** The entries of a post-hoc analysis *)

Section PostHocEntries.

Context {num : Type} `{Number num}.
Variable S : stats.t num.
Variable self : StatisticsEngine num.

Local Open Scope num_scope.

Variable groups : list (list num).
Variable labels : list string.
Variable test_type : string.
Variable equal_variance : bool.

(** The number of comparisons, [k (k - 1) / 2]. *)
Definition n_comparisons_of : num :=
  of_Z (len groups * (len groups - 1)) / of_Z 2.

(** [c] is the entry that the loop of [perform_post_hoc] appends for some
    pair [i < j] of groups: [result] is what the pairwise method returned
    for them. *)
Definition is_comparison (c : PostHoc.comparison num) : Prop :=
  exists (i j : nat) (group1 group2 : list num) (label1 label2 : string)
         (result : Pair.t num) (method : string),
    (i < j < length groups)%nat /\
    getitem groups i = Ok group1 /\ getitem groups j = Ok group2 /\
    getitem labels i = Ok label1 /\ getitem labels j = Ok label2 /\
    post_hoc_pair S self groups test_type equal_variance group1 group2
      = Ok (Some (result, method)) /\
    c = {| PostHoc.group1 := label1;
           PostHoc.group2 := label2;
           PostHoc.mean_diff := np_mean group1 - np_mean group2;
           PostHoc.p_value := Pair.p_value result;
           PostHoc.adjusted_p :=
             py_min (Pair.p_value result * n_comparisons_of) (of_Z 1);
           PostHoc.significant :=
             py_min (Pair.p_value result * n_comparisons_of) (of_Z 1)
             <? significance_level self;
           PostHoc.ci_lower := Pair.ci_lower result;
           PostHoc.ci_upper := Pair.ci_upper result |}.

End PostHocEntries.

(** ** The request as the engine and the specification read it *)

(** The labels [analyze] uses for a request. *)
Definition request_labels {num : Type} (data : Request num) : list string :=
  match labels data with
  | Some l => l
  | None => default_labels (length (groups data))
  end.

(** [options.alpha] of a request, with its default, as the specification
    describes it. *)
Definition request_alpha {num : Type} `{Number num} (data : Request num)
  : num :=
  match options data with
  | Some {| alpha := Some a |} => a
  | _ => dec 5 100
  end.

(** ** A stand-in for the libraries

    To run the engine on a concrete request the libraries must answer.  The
    stand-in keeps what the claims and SciPy's documentation fix (Shapiro-Wilk
    refuses fewer than three observations, [rankdata] averages the ranks of
    ties, a symmetric law has cdf 1/2 at 0, the F statistic of the one-way
    ANOVA) and takes the p-values of the tests as parameters, so that each
    branch of the pipeline can be reached.  No theorem about the engine
    depends on it: it only instantiates them. *)

Section StandIn.

Context {num : Type} `{Number num}.
Local Open Scope num_scope.

(** The cdf of the uniform law on [[lo, hi]]. *)
Definition uniform_cdf (lo hi : Z) (x : num) : num :=
  if x <? of_Z lo then of_Z 0
  else if x >? of_Z hi then of_Z 1
  else (x - of_Z lo) / of_Z (hi - lo).

(** The average rank of each observation: the number of smaller ones plus
    half the number of equal ones (itself included) plus one half. *)
Definition average_ranks (x : list num) : list num :=
  map (fun xi =>
         let less := len (filter (fun y => y <? xi) x) in
         let equal := len (filter (fun y => y =? xi) x) in
         of_Z (2 * less + equal + 1) / of_Z 2)
      x.

(** The F statistic of the one-way ANOVA: between-group over within-group
    mean square. *)
Definition anova_F (groups : list (list num)) : num :=
  let all_data := List.concat groups in
  let grand_mean := np_mean all_data in
  let ss_between :=
    np_sum (map (fun g => of_Z (len g) * sq (np_mean g - grand_mean))
                groups) in
  let ss_within :=
    np_sum (map (fun g => np_sum (map (fun x => sq (x - np_mean g)) g))
                groups) in
  (ss_between / of_Z (len groups - 1))
  / (ss_within / of_Z (len all_data - len groups)).

Definition stand_in_stats (p_normal p_variance p_test : num) : stats.t num :=
  {| stats.shapiro := fun x =>
       if (len x <? 3)%Z
       then Raise (ValueError "Data must be at least length 3.")
       else Ok (of_Z 1, p_normal);
     stats.kstest_norm := fun _ => Ok (of_Z 0, p_normal);
     stats.skew := fun _ => Ok (of_Z 0);
     stats.kurtosis := fun _ => Ok (of_Z 0);
     stats.levene := fun _ => Ok (of_Z 1, p_variance);
     stats.bartlett := fun _ => Ok (of_Z 1, p_variance);
     stats.ttest_1samp := fun _ _ => Ok (of_Z 1, p_test);
     stats.ttest_ind := fun _ _ _ => Ok (of_Z 1, p_test);
     stats.mannwhitneyu := fun _ _ _ => Ok (of_Z 1, p_test);
     stats.f_oneway := fun groups => Ok (anova_F groups, p_test);
     stats.kruskal := fun _ => Ok (of_Z 1, p_test);
     stats.rankdata := fun x => Ok (average_ranks x);
     stats.norm_cdf := uniform_cdf (-2) 2;
     stats.t_cdf := fun x _ => uniform_cdf (-2) 2 x;
     stats.t_ppf := fun q _ => of_Z 4 * q - of_Z 2;
     stats.f_cdf := fun x _ _ => uniform_cdf 0 4 x |}.

(** Insertion sort, for the order statistics. *)
Fixpoint insert_sorted (a : num) (l : list num) : list num :=
  match l with
  | [] => [a]
  | b :: l' => if a <=? b then a :: l else b :: insert_sorted a l'
  end.

Definition sorted (l : list num) : list num :=
  fold_right insert_sorted [] l.

(** The [q]-th percentile by linear interpolation between the two nearest
    order statistics. *)
Definition percentile_linear (x : list num) (q : Z) : result num :=
  match sorted x with
  | [] => Raise (IndexError "index -1 is out of bounds for axis 0 with size 0")
  | (a :: _) as s =>
      let pos := ((len x - 1) * q)%Z in
      let lo := nth (Z.to_nat (pos / 100)) s a in
      let hi := nth (Z.to_nat (pos / 100) + 1) s lo in
      Ok (lo + (hi - lo) * (of_Z (pos mod 100) / of_Z 100))
  end.

Definition stand_in_np : np.t num :=
  {| np.median := fun x => percentile_linear x 50;
     np.min := fun x => percentile_linear x 0;
     np.max := fun x => percentile_linear x 100;
     np.percentile := percentile_linear |}.

End StandIn.

(** ** Concrete requests *)

(** The sample request at the end of the source file. *)
Definition sample_data : Request float :=
  {| groups := [ [23.5; 24.1; 22.9; 24.5; 23.8];
                 [26.8; 27.2; 26.5; 27.0; 26.9];
                 [21.3; 20.9; 21.7; 21.5; 20.8] ]%float;
     labels := Some ["A"; "B"; "C"]%string;
     options := None |}.

Local Open Scope float_scope.

(** A single group of five identical values, and two identical constant
    groups. *)
Definition five_fives : list float := [5; 5; 5; 5; 5].
Definition five_zeros : list float := [0; 0; 0; 0; 0].

Definition one_group (g : list float) : Request float :=
  {| groups := [g]; labels := Some ["x"%string]; options := None |}.

Definition two_groups (g0 g1 : list float) : Request float :=
  {| groups := [g0; g1];
     labels := Some ["x"%string; "y"%string];
     options := None |}.

(** Three groups, the first two with the same mean. *)
Definition tukey_groups : list (list float) := [[1; 3]; [1; 3]; [5; 7]].

(** Three groups without ties, and three groups with one tie. *)
Definition dunn_groups : list (list float) := [[1; 2]; [3; 4]; [5; 6]].
Definition tied_groups : list (list float) := [[1; 1]; [2; 3]; [4; 5]].

(** A sample of two observations. *)
Definition two_observations : list float := [1; 2].

(** A request that asks for alpha = 0.01 and a confidence level of 0.99. *)
Definition request_alpha_01 : Request float :=
  {| groups := [[1; 2; 3; 4; 5]];
     labels := Some ["x"%string];
     options := Some {| alpha := Some 0.01; confidence := Some 0.99 |} |}.

(** Libraries that return on that sample the p-values SciPy returns, to
    three digits: 0.967 for Shapiro-Wilk, and 0.0132 for the one-sample
    t-test against 0 (t = 3 / sqrt 0.5 = 4.243 on 4 degrees of freedom,
    between the two-sided 2 % and 1 % points 3.747 and 4.604). *)
Definition one_to_five_stats : stats.t float :=
  stand_in_stats 0.967 0.5 0.0132.


(** Libraries that find the three groups normal, of unequal variances and
    different. *)
Definition unequal_variance_stats : stats.t float :=
  stand_in_stats 0.5 0.01 0.01.

Local Close Scope float_scope.

(** The stand-in over the reals, and three groups of unequal variances. *)
Definition real_stats : stats.t R :=
  (stand_in_stats (1 / 2) (1 / 100) (1 / 100))%R.
Definition real_groups : list (list R) :=
  [[1; 3]; [2; 6]; [5; 7]]%R.

(** ** The decision table of the engine *)

(** The test [perform_statistical_test] selects for [k] groups. *)
Definition selected_test (k : nat) (is_normal equal_variance : bool)
  : string :=
  match k with
  | 1%nat => "One-sample t-test"
  | 2%nat =>
      if is_normal then
        if equal_variance then "Independent t-test" else "Welch's t-test"
      else "Mann-Whitney U test"
  | _ =>
      if is_normal then
        if equal_variance then "One-way ANOVA" else "Welch's ANOVA"
      else "Kruskal-Wallis H test"
  end.

(** The pairwise method [perform_post_hoc] applies after that test. *)
Definition selected_post_hoc (is_normal equal_variance : bool) : string :=
  if is_normal then
    if equal_variance then "Tukey HSD" else "Games-Howell"
  else "Dunn's test".

(** The pairwise method for a test type, as [perform_post_hoc] reads it off
    the name of the test; [None] when the name has neither "ANOVA" nor
    "Kruskal" (every pair is skipped). *)
Definition post_hoc_method_of (test_type : string) (equal_variance : bool)
  : option string :=
  if contains "ANOVA" test_type then
    Some (if equal_variance then "Tukey HSD" else "Games-Howell")%string
  else if contains "Kruskal" test_type then Some "Dunn's test"%string
  else None.

(** The normality test for a sample of [n] observations. *)
Definition normality_test_for (n : Z) : string :=
  if (n <? 50)%Z then "Shapiro-Wilk" else "Kolmogorov-Smirnov".

Section Entries.

Context {num : Type} `{Number num}.

Local Open Scope num_scope.

(** [c] compares the groups of indices [fst ij] and [snd ij]: it carries
    their labels, in that order, and the difference of their means. *)
Definition pair_entry (groups : list (list num)) (labels : list string)
  (ij : nat * nat) (c : PostHoc.comparison num) : Prop :=
  exists g1 g2,
    nth_error groups (fst ij) = Some g1 /\
    nth_error groups (snd ij) = Some g2 /\
    nth_error labels (fst ij) = Some (PostHoc.group1 c) /\
    nth_error labels (snd ij) = Some (PostHoc.group2 c) /\
    PostHoc.mean_diff c = np_mean g1 - np_mean g2.

End Entries.



(** ** Further concrete inputs *)

(** A request without any group. *)
Definition no_groups : Request float :=
  {| groups := []; labels := None; options := None |}.

(** Two of the real groups. *)
Definition real_group1 : list R := [1; 3]%R.
Definition real_group2 : list R := [2; 6]%R.

(** * Properties *)

(** ** Reasoning about code that may raise *)

Lemma bind_Ok {A B : Type} (m : result A) (k : A -> result B) (b : B) :
  bind m k = Ok b -> exists a, m = Ok a /\ k a = Ok b.
Proof.
  destruct m as [a|e]; simpl; intros Hb.
  - exists a; split; [reflexivity | exact Hb].
  - discriminate Hb.
Qed.

(** Splits a hypothesis [bind m k = Ok b] into its two steps. *)
Tactic Notation "bind_inv" hyp(H) "as" ident(a) ident(Hm) :=
  apply bind_Ok in H; destruct H as [a [Hm H]].

Tactic Notation "bind_inv" hyp(H) :=
  let a := fresh "a" in
  let Hm := fresh "Hm" in
  apply bind_Ok in H; destruct H as [a [Hm H]].

Ltac ok_inv H := injection H as H; subst.

Lemma mapM_In {A B : Type} (f : A -> result B) (l : list A) (bs : list B) :
  mapM f l = Ok bs ->
  forall a, In a l -> exists b, f a = Ok b /\ In b bs.
Proof.
  revert bs; induction l as [|x l IH]; intros bs Hm a Ha.
  - destruct Ha.
  - simpl in Hm. bind_inv Hm. bind_inv Hm. ok_inv Hm.
    destruct Ha as [<-|Ha].
    + exists a0; split; [assumption | left; reflexivity].
    + destruct (IH _ Hm1 a Ha) as [b [Hb Hin]].
      exists b; split; [assumption | right; assumption].
Qed.

Lemma mapM_In_inv {A B : Type} (f : A -> result B) (l : list A) (bs : list B) :
  mapM f l = Ok bs ->
  forall b, In b bs -> exists a, In a l /\ f a = Ok b.
Proof.
  revert bs; induction l as [|x l IH]; intros bs Hm b Hb.
  - ok_inv Hm. destruct Hb.
  - simpl in Hm. bind_inv Hm. bind_inv Hm. ok_inv Hm.
    destruct Hb as [<-|Hb].
    + exists x; split; [left; reflexivity | assumption].
    + destruct (IH _ Hm1 b Hb) as [a' [Ha' Hf]].
      exists a'; split; [right; assumption | assumption].
Qed.

Lemma mapM_Raise {A B : Type} (f : A -> result B) (l : list A) (a : A) (e : exn) :
  In a l -> f a = Raise e -> exists e', mapM f l = Raise e'.
Proof.
  induction l as [|x l IH]; intros Ha Hf.
  - destruct Ha.
  - simpl. destruct Ha as [->|Ha].
    + rewrite Hf. exists e; reflexivity.
    + destruct (f x) as [b|e0]; simpl; [|exists e0; reflexivity].
      destruct (IH Ha Hf) as [e' ->]. exists e'; reflexivity.
Qed.

(** An invariant of the local variables of a loop holds when it ends. *)
Lemma foldM_invariant {A St : Type} (f : St -> A -> result St) (I : St -> Prop)
  (l : list A) :
  (forall s a s', In a l -> I s -> f s a = Ok s' -> I s') ->
  forall s s', I s -> foldM f l s = Ok s' -> I s'.
Proof.
  induction l as [|x l IH]; intros Hstep s s' Hs Hf.
  - ok_inv Hf. assumption.
  - simpl in Hf. bind_inv Hf.
    apply (IH (fun s0 a1 s1 Ha => Hstep s0 a1 s1 (or_intror Ha)) a s').
    + apply (Hstep s x a (or_introl eq_refl) Hs Hm).
    + exact Hf.
Qed.

Section Pipeline.

Context {num : Type} `{Number num}.
Variable S : stats.t num.
Variable N : np.t num.
Variable self : StatisticsEngine num.

Local Open Scope num_scope.

(** The loop of [test_normality] is a map of [normality_entry] over the
    zipped samples; [all_normal] is the conjunction of the flags. *)
Lemma normality_loop (l : list (list num * string)) (st : Normality.t num) :
  foldM (fun (st : Normality.t num) (gl : list num * string) =>
           e <- normality_entry S self (fst gl) (snd gl) ;;
           Ok {| Normality.results := Normality.results st ++ [e];
                 Normality.all_normal :=
                   Normality.all_normal st && Normality.is_normal e |})
        l st
  = (es <- mapM (fun gl => normality_entry S self (fst gl) (snd gl)) l ;;
     Ok {| Normality.results := Normality.results st ++ es;
           Normality.all_normal :=
             Normality.all_normal st
             && forallb (@Normality.is_normal num) es |}).
Proof.
  revert st; induction l as [|gl l IH]; intros st; simpl.
  - rewrite app_nil_r, andb_true_r. destruct st; reflexivity.
  - destruct (normality_entry S self (fst gl) (snd gl)) as [e|x]; simpl;
      [|reflexivity].
    rewrite IH; simpl.
    destruct (mapM _ l) as [es|x]; simpl; [|reflexivity].
    rewrite <- app_assoc, andb_assoc. reflexivity.
Qed.

Lemma test_normality_map (groups : list (list num)) (labels : list string) :
  test_normality S self groups labels
  = (es <- mapM (fun gl => normality_entry S self (fst gl) (snd gl))
                (combine groups labels) ;;
     Ok {| Normality.results := es;
           Normality.all_normal := forallb (@Normality.is_normal num) es |}).
Proof. unfold test_normality. rewrite normality_loop. reflexivity. Qed.

End Pipeline.

(** ** Homogeneity of variance *)

Section HomogeneityProperties.

Context {num : Type} `{Number num}.
Variable S : stats.t num.
Variable self : StatisticsEngine num.

Local Open Scope num_scope.

(** With at least two groups the stage succeeds exactly when both tests
    do, and then reports both. *)
Lemma test_homogeneity_two_or_more (groups : list (list num))
  (labels : list string) (h : Homogeneity.t num) :
  (2 <= len groups)%Z ->
  test_homogeneity S self groups labels = Ok h <->
  exists ls lp bs bp,
    stats.levene S groups = Ok (ls, lp) /\
    stats.bartlett S groups = Ok (bs, bp) /\
    h = {| Homogeneity.results :=
             Some {| Homogeneity.levene :=
                       {| Homogeneity.statistic := ls;
                          Homogeneity.p_value := lp |};
                     Homogeneity.bartlett :=
                       {| Homogeneity.statistic := bs;
                          Homogeneity.p_value := bp |} |};
           Homogeneity.equal_variance := lp >? significance_level self |}.
Proof.
  intros Hk. unfold test_homogeneity.
  destruct (Z.ltb_spec (len groups) 2) as [Hlt|_]; [lia|].
  split.
  - intros Hh. bind_inv Hh. destruct a as [ls lp].
    bind_inv Hh. destruct a as [bs bp]. ok_inv Hh.
    exists ls, lp, bs, bp. auto.
  - intros (ls & lp & bs & bp & Hl & Hb & ->).
    rewrite Hl; simpl. rewrite Hb; simpl. reflexivity.
Qed.

(** C9. With at least two groups, [test_homogeneity] runs both Levene's and
    Bartlett's test and reports both, and [equal_variance] is (Levene's
    p-value > the engine's significance level, which [__init__] sets to
    0.05), whatever Bartlett's p-value is;
    with fewer than two groups it returns [equal_variance = True] and
    [results = None] without calling either test. *)
Theorem homogeneity_decision_is_levene (groups : list (list num))
  (labels : list string) :
  ((2 <= len groups)%Z ->
   forall h, test_homogeneity S self groups labels = Ok h ->
   exists ls lp bs bp,
     stats.levene S groups = Ok (ls, lp) /\
     stats.bartlett S groups = Ok (bs, bp) /\
     Homogeneity.results h =
       Some {| Homogeneity.levene :=
                 {| Homogeneity.statistic := ls; Homogeneity.p_value := lp |};
               Homogeneity.bartlett :=
                 {| Homogeneity.statistic := bs;
                    Homogeneity.p_value := bp |} |} /\
     Homogeneity.equal_variance h = (lp >? significance_level self)) /\
  ((2 <= len groups)%Z ->
   forall ls lp bs bp,
     stats.levene S groups = Ok (ls, lp) ->
     stats.bartlett S groups = Ok (bs, bp) ->
     exists h, test_homogeneity S self groups labels = Ok h) /\
  ((len groups < 2)%Z ->
   test_homogeneity S self groups labels =
     Ok {| Homogeneity.results := None;
           Homogeneity.equal_variance := true |}).
Proof.
  split; [|split].
  - intros Hk h Hh.
    apply (test_homogeneity_two_or_more groups labels h Hk) in Hh.
    destruct Hh as (ls & lp & bs & bp & Hl & Hb & ->).
    exists ls, lp, bs, bp. repeat split; assumption.
  - intros Hk ls lp bs bp Hl Hb. eexists.
    apply (test_homogeneity_two_or_more groups labels _ Hk).
    exists ls, lp, bs, bp. repeat split; assumption.
  - intros Hk. unfold test_homogeneity.
    destruct (Z.ltb_spec (len groups) 2) as [_|Hge]; [reflexivity|lia].
Qed.

End HomogeneityProperties.

(** ** When post-hoc comparisons are run *)

Section PostHocTrigger.

Context {num : Type} `{Number num}.
Variable S : stats.t num.
Variable N : np.t num.
Variable self : StatisticsEngine num.

(** The stages of a successful analysis. *)
Lemma analyze_Success (data : Request num) (a : Analysis num) :
  analyze S N self data = Success a ->
  let labels :=
    match labels data with
    | Some l => l
    | None => default_labels (length (groups data))
    end in
  calculate_descriptive_stats S N self (groups data) labels
    = Ok (descriptive a) /\
  test_normality S self (groups data) labels = Ok (normality a) /\
  test_homogeneity S self (groups data) labels = Ok (homogeneity a) /\
  perform_statistical_test S self (groups data) labels
    (Normality.all_normal (normality a))
    (Homogeneity.equal_variance (homogeneity a)) = Ok (test a) /\
  (if (len (groups data) >? 2)%Z && Test.significant (test a) then
     exists r,
       perform_post_hoc S self (groups data) labels
         (Test.test_type (test a))
         (Normality.all_normal (normality a))
         (Homogeneity.equal_variance (homogeneity a)) = Ok r /\
       post_hoc a = Some r
   else post_hoc a = None).
Proof.
  unfold analyze. destruct (analyze_body S N self data) as [a'|e] eqn:Hb;
    [|discriminate].
  intros Ha; injection Ha as ->. cbv zeta.
  unfold analyze_body in Hb.
  set (labels0 := match labels data with
                  | Some l => l
                  | None => default_labels (length (groups data))
                  end) in *.
  bind_inv Hb. rename a0 into d, Hm into Hd.
  bind_inv Hb. rename a0 into n, Hm into Hn.
  bind_inv Hb. rename a0 into h, Hm into Hh.
  bind_inv Hb. rename a0 into t, Hm into Ht.
  bind_inv Hb. rename a0 into p, Hm into Hp.
  ok_inv Hb. simpl.
  repeat (split; [assumption|]).
  destruct ((len (groups data) >? 2)%Z && Test.significant t).
  - bind_inv Hp. ok_inv Hp. exists a; split; [assumption|reflexivity].
  - ok_inv Hp. reflexivity.
Qed.

(** C7. In every successful analysis, [post_hoc] is not [None] exactly when
    there are more than two groups and the omnibus test is significant; with
    exactly two groups it is [None] even when the test is significant. *)
Theorem post_hoc_iff_many_groups_and_significant
  (data : Request num) (a : Analysis num) :
  analyze S N self data = Success a ->
  (post_hoc a <> None <->
   (len (groups data) > 2)%Z /\ Test.significant (test a) = true) /\
  (len (groups data) = 2%Z -> post_hoc a = None).
Proof.
  intros Ha. apply analyze_Success in Ha.
  destruct Ha as (_ & _ & _ & _ & Hp).
  destruct (Z.gtb_spec (len (groups data)) 2) as [Hgt|Hle];
    destruct (Test.significant (test a)); simpl in Hp.
  - destruct Hp as (r & _ & ->). split.
    + split; [intros _; split; [lia|reflexivity] | intros _; discriminate].
    + intros Hk; lia.
  - split; [|intros _; exact Hp].
    rewrite Hp. split; [intros Hc; contradiction Hc; reflexivity|].
    intros [_ Hs]; discriminate Hs.
  - split; [|intros _; exact Hp].
    rewrite Hp. split; [intros Hc; contradiction Hc; reflexivity|].
    intros [Hk _]; lia.
  - split; [|intros _; exact Hp].
    rewrite Hp. split; [intros Hc; contradiction Hc; reflexivity|].
    intros [Hk _]; lia.
Qed.

End PostHocTrigger.

(** ** Welch's ANOVA *)

Section WelchDerivation.

Context {num : Type} `{Number num}.
Variable S : stats.t num.

Local Open Scope num_scope.

(** *** The code computes it *)

Lemma fold_left_map_seq (f : nat -> num) (l : list nat) (acc : num) :
  fold_left add (map f l) acc = fold_left (fun a i => a + f i) l acc.
Proof.
  revert acc; induction l as [|i l IH]; intros acc; simpl;
    [reflexivity | apply IH].
Qed.

Lemma list_as_map_seq {A : Type} (l : list A) (d : A) :
  l = map (fun i => nth i l d) (seq 0 (length l)).
Proof.
  apply (nth_ext _ _ d (nth 0 l d)).
  - rewrite length_map, length_seq. reflexivity.
  - intros i Hi.
    rewrite (nth_indep _ (nth 0 l d)
               (nth (nth i (seq 0 (length l)) 0%nat) l d)).
    + rewrite (map_nth (fun i => nth i l d)), seq_nth by assumption.
      reflexivity.
    + rewrite length_map, length_seq. assumption.
Qed.

(** An array sum is the sum over the indices. *)
Lemma np_sum_map_nth {A : Type} (f : A -> num) (l : list A) (d : A) :
  np_sum (map f l) = big_sum (length l) (fun i => f (nth i l d)).
Proof.
  unfold np_sum, big_sum.
  rewrite (list_as_map_seq l d) at 1.
  rewrite map_map. apply fold_left_map_seq.
Qed.

(** Element-wise operations on arrays computed from the groups. *)
Lemma map2_map {A B C D : Type} (f : B -> C -> D) (a : A -> B) (b : A -> C)
  (l : list A) :
  map2 f (map a l) (map b l) = map (fun x => f (a x) (b x)) l.
Proof.
  unfold map2. induction l as [|x l IH]; simpl;
    [reflexivity | rewrite IH; reflexivity].
Qed.

Variable groups : list (list num).

Lemma welch_anova_spec :
  welch_anova S groups = (welch_F groups, welch_p S groups).
Proof.
  unfold welch_anova.
  rewrite (map2_map (fun n v => of_Z n / v) len (fun g => np_var g 1)).
  set (w := fun g : list num => of_Z (len g) / np_var g 1).
  rewrite (map2_map mul w np_mean).
  rewrite (map2_map (fun a n => sq (of_Z 1 - a / np_sum (map w groups))
                                / of_Z (n - 1)) w len).
  set (gm := np_sum (map (fun x => w x * np_mean x) groups)
             / np_sum (map w groups)).
  rewrite (map2_map (fun a m => a * sq (m - gm)) w np_mean).
  assert (HW : np_sum (map w groups) = welch_W groups).
  { rewrite (np_sum_map_nth w groups []). reflexivity. }
  assert (Hgm : gm = welch_grand_mean groups).
  { unfold gm. rewrite HW.
    rewrite (np_sum_map_nth (fun x => w x * np_mean x) groups []).
    reflexivity. }
  assert (Hnum :
    np_sum (map (fun x => w x * sq (np_mean x - gm)) groups)
    / of_Z (len groups - 1) = welch_numerator groups).
  { rewrite (np_sum_map_nth (fun x => w x * sq (np_mean x - gm)) groups []).
    rewrite Hgm. reflexivity. }
  assert (Hlam :
    of_Z 3
    * np_sum (map (fun x => sq (of_Z 1 - w x / np_sum (map w groups))
                            / of_Z (len x - 1)) groups)
    / of_Z (len groups * len groups - 1) = welch_lambda groups).
  { rewrite HW.
    rewrite (np_sum_map_nth
               (fun x => sq (of_Z 1 - w x / welch_W groups) / of_Z (len x - 1))
               groups []).
    reflexivity. }
  rewrite Hnum, Hlam. reflexivity.
Qed.

End WelchDerivation.

Section WelchBranch.

Context {num : Type} `{Number num}.
Variable S : stats.t num.
Variable N : np.t num.
Variable self : StatisticsEngine num.

Local Open Scope num_scope.

(** The branch of [perform_statistical_test] for more than two groups,
    normal, of unequal variances. *)
Lemma perform_statistical_test_welch (groups : list (list num))
  (labels : list string) :
  (len groups > 2)%Z ->
  perform_statistical_test S self groups labels true false
  = (effect_size <- calculate_omega_squared S groups ;;
     Ok {| Test.test_type := "Welch's ANOVA";
           Test.statistic := fst (welch_anova S groups);
           Test.p_value := snd (welch_anova S groups);
           Test.significant :=
             snd (welch_anova S groups) <? significance_level self;
           Test.effect_size := effect_size |}).
Proof.
  intros Hk. unfold perform_statistical_test.
  destruct groups as [|g0 [|g1 [|g2 rest]]];
    try (unfold len in Hk; simpl in Hk; lia).
  destruct (welch_anova S (g0 :: g1 :: g2 :: rest)) as [f p]; simpl.
  destruct (calculate_omega_squared S (g0 :: g1 :: g2 :: rest));
    reflexivity.
Qed.

(** C6. In a successful analysis of more than two groups, all normal, with
    [equal_variance] false, the omnibus test is Welch's ANOVA and its
    statistic and p-value are those of the derivation: w_i = n_i / var_i,
    W their sum, the weighted grand mean, numerator, lambda, denominator,
    F = numerator / denominator, df1 = k - 1, df2 = 1 / lambda, and p the
    upper tail (one minus the cdf) of the F distribution at (df1, df2). *)
Theorem welch_anova_derivation (data : Request num) (a : Analysis num) :
  analyze S N self data = Success a ->
  (len (groups data) > 2)%Z ->
  Normality.all_normal (normality a) = true ->
  Homogeneity.equal_variance (homogeneity a) = false ->
  Test.test_type (test a) = "Welch's ANOVA"%string /\
  Test.statistic (test a) = welch_F (groups data) /\
  Test.p_value (test a)
  = of_Z 1 - stats.f_cdf S (welch_F (groups data))
                           (of_Z (len (groups data) - 1))
                           (of_Z 1 / welch_lambda (groups data)).
Proof.
  intros Ha Hk Hn He. apply analyze_Success in Ha.
  destruct Ha as (_ & _ & _ & Ht & _).
  rewrite Hn, He in Ht.
  rewrite (perform_statistical_test_welch _ _ Hk) in Ht.
  rewrite welch_anova_spec in Ht. simpl in Ht.
  bind_inv Ht. ok_inv Ht. rewrite <- Ht; simpl.
  repeat split; reflexivity.
Qed.

(** In that branch the effect size is the omega-squared formula applied to
    the F statistic that [stats.f_oneway] returns for the groups. *)
Lemma welch_effect_size (data : Request num) (a : Analysis num) :
  analyze S N self data = Success a ->
  (len (groups data) > 2)%Z ->
  Normality.all_normal (normality a) = true ->
  Homogeneity.equal_variance (homogeneity a) = false ->
  exists f_stat p,
    stats.f_oneway S (groups data) = Ok (f_stat, p) /\
    omega_of (groups data) f_stat
      = Ok (Test.value (Test.effect_size (test a))) /\
    Test.statistic (test a) = fst (welch_anova S (groups data)).
Proof.
  intros Ha Hk Hn He. apply analyze_Success in Ha.
  destruct Ha as (_ & _ & _ & Ht & _).
  rewrite Hn, He in Ht.
  rewrite (perform_statistical_test_welch _ _ Hk) in Ht.
  bind_inv Ht. ok_inv Ht. rewrite <- Ht; simpl.
  unfold calculate_omega_squared in Hm.
  bind_inv Hm. destruct a1 as [f_stat p].
  bind_inv Hm. ok_inv Hm. simpl.
  exists f_stat, p. repeat split; assumption.
Qed.

End WelchBranch.

(** ** Post-hoc comparisons *)

Lemma pairs_spec (n i j : nat) :
  In (i, j) (pairs n) <-> (i < j < n)%nat.
Proof.
  unfold pairs. rewrite in_flat_map. split.
  - intros (i' & Hi' & Hin). apply in_map_iff in Hin.
    destruct Hin as (j' & Heq & Hj'). injection Heq as -> ->.
    apply in_seq in Hi'. apply in_seq in Hj'. lia.
  - intros Hij. exists i. split; [apply in_seq; lia|].
    apply in_map_iff. exists j. split; [reflexivity | apply in_seq; lia].
Qed.

Section PostHocStructure.

Context {num : Type} `{Number num}.
Variable S : stats.t num.
Variable self : StatisticsEngine num.

Local Open Scope num_scope.

Variable groups : list (list num).
Variable labels : list string.
Variable test_type : string.
Variable equal_variance : bool.

Lemma post_hoc_step_invariant (st st' : post_hoc_locals) (ij : nat * nat) :
  In ij (pairs (length groups)) ->
  (forall c, In c (loc_comparisons st) -> is_comparison S self groups labels test_type equal_variance c) /\
  (forall nc, loc_n_comparisons st = Some nc -> nc = n_comparisons_of groups) ->
  post_hoc_step S self groups labels test_type equal_variance st ij = Ok st' ->
  (forall c, In c (loc_comparisons st') -> is_comparison S self groups labels test_type equal_variance c) /\
  (forall nc, loc_n_comparisons st' = Some nc -> nc = n_comparisons_of groups).
Proof.
  destruct ij as [i j]. intros Hij [Hc Hnc] Hstep.
  apply pairs_spec in Hij.
  unfold post_hoc_step in Hstep; simpl in Hstep.
  bind_inv Hstep. rename a into group1, Hm into Hg1.
  bind_inv Hstep. rename a into group2, Hm into Hg2.
  bind_inv Hstep. rename a into label1, Hm into Hl1.
  bind_inv Hstep. rename a into label2, Hm into Hl2.
  bind_inv Hstep. rename a into chosen, Hm into Hch.
  destruct chosen as [[result method]|].
  - ok_inv Hstep. simpl. split.
    + intros c Hin. apply in_app_or in Hin. destruct Hin as [Hin|Hin].
      * apply Hc; assumption.
      * destruct Hin as [<-|[]].
        exists i, j, group1, group2, label1, label2, result, method.
        repeat (split; [assumption|]). reflexivity.
    + intros nc Hs. injection Hs as <-. reflexivity.
  - ok_inv Hstep. split; assumption.
Qed.

(** What [perform_post_hoc] returns, when it returns. *)
Lemma perform_post_hoc_Ok (is_normal : bool) (r : PostHoc.t num) :
  perform_post_hoc S self groups labels test_type is_normal equal_variance
    = Ok r ->
  (forall c, In c (PostHoc.comparisons r) -> is_comparison S self groups labels test_type equal_variance c) /\
  PostHoc.bonferroni_alpha r = significance_level self / n_comparisons_of groups.
Proof.
  unfold perform_post_hoc. intros Hr. bind_inv Hr. rename a into st.
  apply (foldM_invariant
           (post_hoc_step S self groups labels test_type equal_variance)
           (fun st =>
              (forall c, In c (loc_comparisons st) -> is_comparison S self groups labels test_type equal_variance c) /\
              (forall nc, loc_n_comparisons st = Some nc ->
                          nc = n_comparisons_of groups))) in Hm.
  - destruct Hm as [Hc Hnc].
    destruct (loc_method st) as [method|]; [|discriminate].
    destruct (loc_n_comparisons st) as [nc|]; [|discriminate].
    bind_inv Hr. ok_inv Hr. simpl. split; [assumption|].
    rewrite (Hnc nc eq_refl) in Hm.
    unfold float_truediv in Hm.
    destruct (n_comparisons_of groups =? of_Z 0); [discriminate|].
    ok_inv Hm. reflexivity.
  - intros s a s' Ha. apply post_hoc_step_invariant. assumption.
  - simpl. split; [intros c []|intros nc Hnc; discriminate].
Qed.

End PostHocStructure.

(** ** The Bonferroni adjustment, over the reals *)

Section Bonferroni.

Local Open Scope R_scope.

Lemma Rinv_nonneg (y : R) : 0 <= y -> 0 <= / y.
Proof.
  intros [Hy|<-].
  - left. apply Rinv_0_lt_compat. assumption.
  - rewrite Rinv_0. apply Rle_refl.
Qed.

Lemma Rdiv_nonneg (x y : R) : 0 <= x -> 0 <= y -> 0 <= x / y.
Proof.
  intros Hx Hy. unfold Rdiv.
  apply Rmult_le_pos; [assumption | apply Rinv_nonneg; assumption].
Qed.

Lemma py_min_Rmin (a b : R) : py_min a b = Rmin a b.
Proof.
  unfold py_min, Rmin; simpl; unfold Rltb.
  destruct (Rlt_dec b a) as [Hlt|Hge]; destruct (Rle_dec a b) as [Hle|Hgt];
    try reflexivity; lra.
Qed.

Variable S : stats.t R.
Variable self : StatisticsEngine R.

(** The distribution functions are cdfs of laws symmetric about 0: values
    in [[0, 1]], at least 1/2 on the non-negative half-line. *)
Hypothesis norm_cdf_range : forall x, 0 <= stats.norm_cdf S x <= 1.
Hypothesis norm_cdf_half : forall x, 0 <= x -> 1 / 2 <= stats.norm_cdf S x.
Hypothesis t_cdf_range : forall x df, 0 <= stats.t_cdf S x df <= 1.
Hypothesis t_cdf_half : forall x df, 0 <= x -> 1 / 2 <= stats.t_cdf S x df.

Lemma tukey_p_range (group1 group2 : list R) (k : Z)
  (all_groups : list (list R)) (r : Pair.t R) :
  tukey_hsd_pair S group1 group2 k all_groups = Ok r ->
  0 <= Pair.p_value r <= 1.
Proof.
  unfold tukey_hsd_pair. intros Hr.
  bind_inv Hr. bind_inv Hr. bind_inv Hr. ok_inv Hr. simpl.
  match goal with
  | |- 0 <= 1 - stats.norm_cdf S ?x <= 1 =>
      pose proof (norm_cdf_range x)
  end.
  lra.
Qed.

Lemma games_howell_p_range (group1 group2 : list R) :
  0 <= Pair.p_value (games_howell_pair S self group1 group2) <= 1.
Proof.
  unfold games_howell_pair; simpl.
  match goal with
  | |- 0 <= 2 * (1 - stats.t_cdf S ?x ?df) <= 1 =>
      pose proof (t_cdf_range x df);
      assert (1 / 2 <= stats.t_cdf S x df)
        by (apply t_cdf_half, Rdiv_nonneg;
            [apply Rabs_pos | apply sqrt_pos])
  end.
  lra.
Qed.

Lemma dunn_p_range (group1 group2 : list R) (all_groups : list (list R))
  (r : Pair.t R) :
  dunn_test_pair S group1 group2 all_groups = Ok r ->
  0 <= Pair.p_value r <= 1.
Proof.
  unfold dunn_test_pair, dunn_z. intros Hr.
  bind_inv Hr. rename a into z, Hm into Hz.
  bind_inv Hz. bind_inv Hz.
  destruct (dunn_mean_ranks _ _ _) as [rank1 rank2].
  bind_inv Hz. bind_inv Hz. ok_inv Hz. ok_inv Hr. simpl.
  match goal with
  | |- 0 <= 2 * (1 - stats.norm_cdf S ?x) <= 1 =>
      pose proof (norm_cdf_range x);
      assert (1 / 2 <= stats.norm_cdf S x)
        by (apply norm_cdf_half, Rdiv_nonneg;
            [apply Rabs_pos | apply sqrt_pos])
  end.
  lra.
Qed.

Lemma post_hoc_pair_p_range (groups : list (list R)) (test_type : string)
  (equal_variance : bool) (group1 group2 : list R) (r : Pair.t R)
  (method : string) :
  post_hoc_pair S self groups test_type equal_variance group1 group2
    = Ok (Some (r, method)) ->
  0 <= Pair.p_value r <= 1.
Proof.
  unfold post_hoc_pair. intros Hr.
  destruct (contains "ANOVA" test_type).
  - destruct equal_variance.
    + bind_inv Hr. ok_inv Hr. eapply tukey_p_range; eassumption.
    + ok_inv Hr. apply games_howell_p_range.
  - destruct (contains "Kruskal" test_type); [|discriminate].
    bind_inv Hr. ok_inv Hr. eapply dunn_p_range; eassumption.
Qed.

(** In exact arithmetic, where every p-value is a number, the adjusted
    p-value min(raw_p * C, 1) lies between the raw one and 1.  The reals
    have no not-a-number: what binary64 does on a 0/0 is the subject of
    [bonferroni_adjustment] below. *)
Lemma bonferroni_range_exact (groups : list (list R)) (labels : list string)
  (test_type : string) (is_normal equal_variance : bool)
  (r : PostHoc.t R) (c : PostHoc.comparison R) :
  perform_post_hoc S self groups labels test_type is_normal equal_variance
    = Ok r ->
  In c (PostHoc.comparisons r) ->
  let C := IZR (len groups * (len groups - 1)) / 2 in
  PostHoc.adjusted_p c = Rmin (PostHoc.p_value c * C) 1 /\
  PostHoc.p_value c <= PostHoc.adjusted_p c /\
  PostHoc.adjusted_p c <= 1 /\
  PostHoc.bonferroni_alpha r = significance_level self / C.
Proof.
  intros Hr Hc C.
  apply perform_post_hoc_Ok in Hr. destruct Hr as [Hall Halpha].
  destruct (Hall c Hc)
    as (i & j & g1 & g2 & l1 & l2 & res & m & Hij & _ & _ & _ & _ & Hp & ->).
  apply post_hoc_pair_p_range in Hp. simpl.
  assert (HC : 1 <= C).
  { unfold C.
    assert (Hk : (2 <= len groups * (len groups - 1))%Z)
      by (unfold len; nia).
    apply IZR_le in Hk. lra. }
  rewrite py_min_Rmin.
  change (IZR (len groups * (len groups - 1)) / 2) with C.
  split; [reflexivity|]. split; [|split].
  - apply Rmin_glb; [clearbody C; nra | lra].
  - apply Rmin_r.
  - exact Halpha.
Qed.

End Bonferroni.

(** ** Tukey HSD *)

Section TukeyPair.

Context {num : Type} `{Number num}.
Variable S : stats.t num.

Local Open Scope num_scope.

(** *** What the code returns *)

Lemma len_concat (groups : list (list num)) :
  len (List.concat groups) = fold_left Z.add (map len groups) 0%Z.
Proof.
  assert (Hgen : forall acc,
            fold_left Z.add (map len groups) acc
            = (acc + len (List.concat groups))%Z).
  { induction groups as [|g gs IH]; intros acc; simpl.
    - unfold len; simpl; lia.
    - rewrite IH. unfold len. rewrite length_app. lia. }
  rewrite Hgen. lia.
Qed.

Lemma tukey_mse_pooled (groups : list (list num)) :
  tukey_mse (len groups) groups (List.concat groups) = pooled_mse groups.
Proof.
  unfold tukey_mse, pooled_mse, py_sum.
  rewrite len_concat.
  change (fold_left add (map (fun g => np_sum (map (fun x => sq (x - np_mean g)) g)) groups) (of_Z 0))
    with (np_sum (map within_ss groups)).
  rewrite (np_sum_map_nth within_ss groups []). reflexivity.
Qed.

(** The p-value of [tukey_hsd_pair] is the one-sided 1 - Phi(q / sqrt 2):
    the factor 2 of the specification is not applied. *)
Lemma tukey_p_value_code (groups : list (list num)) (gi gj : list num)
  (r : Pair.t num) :
  tukey_hsd_pair S gi gj (len groups) groups = Ok r ->
  Pair.p_value r
  = of_Z 1 - stats.norm_cdf S (tukey_q groups gi gj / sqrt (of_Z 2)) /\
  tukey_p_claimed S groups gi gj = of_Z 2 * Pair.p_value r.
Proof.
  unfold tukey_hsd_pair. intros Hr.
  bind_inv Hr. rename a into all_data, Hm into Hall.
  bind_inv Hr. rename a into inv1, Hm into H1.
  bind_inv Hr. rename a into inv2, Hm into H2.
  ok_inv Hr. simpl.
  assert (Hdata : all_data = List.concat groups).
  { destruct groups; [discriminate | injection Hall as <-; reflexivity]. }
  subst all_data. rewrite tukey_mse_pooled.
  unfold int_truediv in H1, H2.
  destruct (len gi =? 0)%Z; [discriminate|].
  destruct (len gj =? 0)%Z; [discriminate|].
  ok_inv H1. ok_inv H2.
  split; reflexivity.
Qed.

End TukeyPair.

(** ** Dunn's test *)

Section DunnPair.

Context {num : Type} `{Number num}.
Variable S : stats.t num.

Local Open Scope num_scope.

(** *** What the code computes *)

(** The two groups enter [dunn_test_pair] by their sizes only: the mean
    ranks are those of the first [n1] and of the next [n2] pooled
    observations, whichever groups are compared. *)
Lemma dunn_pair_depends_on_sizes (group1 group2 group1' group2' : list num)
  (all_groups : list (list num)) :
  length group1 = length group1' ->
  length group2 = length group2' ->
  dunn_test_pair S group1 group2 all_groups
  = dunn_test_pair S group1' group2' all_groups.
Proof.
  intros H1 H2. unfold dunn_test_pair, dunn_z, len.
  rewrite H1, H2. reflexivity.
Qed.

(** The variance of the ranks in [dunn_z] is N (N+1) / 12, ties or not. *)
Lemma dunn_z_code (group1 group2 : list num) (all_groups : list (list num))
  (z : num) :
  dunn_z S group1 group2 all_groups = Ok z ->
  exists ranks,
    stats.rankdata S (List.concat all_groups) = Ok ranks /\
    let n := len (List.concat all_groups) in
    z = abs (np_mean (firstn (length group1) ranks)
             - np_mean (firstn (length group2)
                               (skipn (length group1) ranks)))
        / sqrt (of_Z (n * (n + 1)) / of_Z 12
                * (of_Z 1 / of_Z (len group1) + of_Z 1 / of_Z (len group2))).
Proof.
  unfold dunn_z. intros Hz.
  bind_inv Hz. rename a into all_data, Hm into Hall.
  bind_inv Hz. rename a into ranks, Hm into Hranks.
  unfold dunn_mean_ranks in Hz.
  bind_inv Hz. rename a into inv1, Hm into H1.
  bind_inv Hz. rename a into inv2, Hm into H2.
  ok_inv Hz.
  assert (Hdata : all_data = List.concat all_groups).
  { destruct all_groups; [discriminate | injection Hall as <-; reflexivity]. }
  subst all_data. exists ranks. split; [assumption|].
  unfold int_truediv in H1, H2.
  destruct (len group1 =? 0)%Z; [discriminate|].
  destruct (len group2 =? 0)%Z; [discriminate|].
  ok_inv H1. ok_inv H2. reflexivity.
Qed.

End DunnPair.

(** ** Small samples in the normality stage *)

Section SmallSamples.

Context {num : Type} `{Number num}.
Variable S : stats.t num.
Variable N : np.t num.
Variable self : StatisticsEngine num.

Local Open Scope num_scope.

(** Every entry of the normality stage carries the decision
    p-value > significance level. *)
Lemma normality_entry_decision (group : list num) (label : string)
  (e : Normality.entry num) :
  normality_entry S self group label = Ok e ->
  Normality.label e = label /\
  Normality.is_normal e = (Normality.p_value e >? significance_level self) /\
  (Normality.test e = "Shapiro-Wilk"%string \/
   Normality.test e = "Kolmogorov-Smirnov"%string).
Proof.
  unfold normality_entry. intros He.
  bind_inv He as tested Htest. destruct tested as [[st pv] tn].
  bind_inv He. bind_inv He. ok_inv He. simpl.
  split; [reflexivity|]. split; [reflexivity|].
  destruct (len group <? 50)%Z.
  - bind_inv Htest as wp Hwp. destruct wp as [w p]. ok_inv Htest.
    left; reflexivity.
  - bind_inv Htest as wp Hwp. destruct wp as [w p]. ok_inv Htest.
    right; reflexivity.
Qed.

(** A sample of fewer than 50 observations, however few, is given to
    [stats.shapiro]. *)
Lemma normality_entry_small (group : list num) (label : string)
  (e : Normality.entry num) :
  (len group < 50)%Z ->
  normality_entry S self group label = Ok e ->
  exists w p,
    stats.shapiro S group = Ok (w, p) /\
    Normality.test e = "Shapiro-Wilk"%string /\
    Normality.statistic e = w /\
    Normality.p_value e = p.
Proof.
  intros Hn. unfold normality_entry.
  destruct (Z.ltb_spec (len group) 50) as [_|Hge]; [|lia].
  intros He. bind_inv He as tested Htest. destruct tested as [[st pv] tn].
  bind_inv Htest as wp Hwp. destruct wp as [w p]. ok_inv Htest.
  bind_inv He. bind_inv He. ok_inv He. simpl.
  exists st, pv. repeat split; (assumption || reflexivity).
Qed.

Lemma normality_entry_small_raise (group : list num) (label : string)
  (x : exn) :
  (len group < 50)%Z ->
  stats.shapiro S group = Raise x ->
  normality_entry S self group label = Raise x.
Proof.
  intros Hn Hx. unfold normality_entry.
  destruct (Z.ltb_spec (len group) 50) as [_|Hge]; [|lia].
  rewrite Hx. reflexivity.
Qed.

(** C1. A sample of fewer than 3 observations is not marked: the normality
    stage passes it to Shapiro-Wilk like any sample below 50.  When that
    call raises, the whole analysis returns success = false; when it
    returns, the entry of the sample is the ordinary one (test
    "Shapiro-Wilk", is_normal = p-value > significance level), which is not
    an insufficient-data marker. *)
Theorem small_sample_goes_to_shapiro (data : Request num)
  (group : list num) (label : string) :
  In (group, label) (combine (groups data) (request_labels data)) ->
  (len group < 3)%Z ->
  (forall x, stats.shapiro S group = Raise x ->
             success (analyze S N self data) = false) /\
  (forall a, analyze S N self data = Success a ->
     exists e w p,
       In e (Normality.results (normality a)) /\
       Normality.label e = label /\
       stats.shapiro S group = Ok (w, p) /\
       Normality.test e = "Shapiro-Wilk"%string /\
       Normality.p_value e = p /\
       Normality.is_normal e = (p >? significance_level self)).
Proof.
  intros Hin Hn. split.
  - intros x Hx. unfold analyze, analyze_body.
    fold (request_labels data).
    destruct (calculate_descriptive_stats S N self (groups data)
                (request_labels data)) as [d|xd]; [|reflexivity].
    simpl. rewrite test_normality_map.
    destruct (mapM_Raise
                (fun gl => normality_entry S self (fst gl) (snd gl))
                _ (group, label) Hin
                (normality_entry_small_raise group label ltac:(lia) Hx))
      as [x' ->].
    reflexivity.
  - intros a Ha. apply analyze_Success in Ha.
    destruct Ha as (_ & Hnorm & _).
    fold (request_labels data) in Hnorm.
    rewrite test_normality_map in Hnorm.
    bind_inv Hnorm. ok_inv Hnorm. rewrite <- Hnorm; simpl.
    destruct (mapM_In _ _ Hm _ Hin) as (e & He & Hine). simpl in He.
    destruct (normality_entry_small group label ltac:(lia) He)
      as (w & p & Hs & Ht & _ & Hp).
    destruct (normality_entry_decision _ _ He) as (Hl & Hd & _).
    exists e, w, p. rewrite Hp in Hd.
    repeat split; assumption.
Qed.

End SmallSamples.

(** ** The levels of the decisions *)

Section Levels.

Context {num : Type} `{Number num}.
Variable S : stats.t num.
Variable N : np.t num.
Variable self : StatisticsEngine num.

Local Open Scope num_scope.

Lemma perform_statistical_test_significant (groups : list (list num))
  (labels : list string) (is_normal equal_variance : bool) (t : Test.t num) :
  perform_statistical_test S self groups labels is_normal equal_variance
    = Ok t ->
  Test.significant t = (Test.p_value t <? significance_level self).
Proof.
  unfold perform_statistical_test. intros Ht.
  bind_inv Ht as chosen Hchosen.
  destruct chosen as [[[test_type t_stat] p] effect_size].
  ok_inv Ht. reflexivity.
Qed.

Lemma descriptive_interval (groups : list (list num)) (labels : list string)
  (ds : list (Descriptive.t num)) (d : Descriptive.t num) :
  calculate_descriptive_stats S N self groups labels = Ok ds ->
  In d ds ->
  let t_critical :=
    stats.t_ppf S ((of_Z 1 + confidence_level self) / of_Z 2)
                  (of_Z (Descriptive.n d - 1)) in
  Descriptive.ci95_lower d
    = Descriptive.mean d - t_critical * Descriptive.se d /\
  Descriptive.ci95_upper d
    = Descriptive.mean d + t_critical * Descriptive.se d.
Proof.
  unfold calculate_descriptive_stats. intros Hds Hd.
  destruct (mapM_In_inv _ _ Hds _ Hd) as ([group label] & _ & Hgl).
  bind_inv Hgl. bind_inv Hgl. bind_inv Hgl. bind_inv Hgl. bind_inv Hgl.
  ok_inv Hgl. simpl. split; reflexivity.
Qed.

(** The response does not depend on the options of the request, and every
    decision of a successful analysis compares a p-value with the
    significance level of the engine; the confidence interval of each
    sample uses the confidence level of the engine. *)
Lemma decisions_use_engine_levels (data : Request num)
  (o : option (Options num)) :
  analyze S N self
    {| groups := groups data; labels := labels data; options := o |}
  = analyze S N self data /\
  forall a, analyze S N self data = Success a ->
    (forall e, In e (Normality.results (normality a)) ->
       Normality.is_normal e
       = (Normality.p_value e >? significance_level self)) /\
    (forall d, Homogeneity.results (homogeneity a) = Some d ->
       Homogeneity.equal_variance (homogeneity a)
       = (Homogeneity.p_value (Homogeneity.levene d)
          >? significance_level self)) /\
    Test.significant (test a)
    = (Test.p_value (test a) <? significance_level self) /\
    (forall r c, post_hoc a = Some r -> In c (PostHoc.comparisons r) ->
       PostHoc.significant c
       = (PostHoc.adjusted_p c <? significance_level self)) /\
    (forall d, In d (descriptive a) ->
       let t_critical :=
         stats.t_ppf S ((of_Z 1 + confidence_level self) / of_Z 2)
                       (of_Z (Descriptive.n d - 1)) in
       Descriptive.ci95_lower d
         = Descriptive.mean d - t_critical * Descriptive.se d /\
       Descriptive.ci95_upper d
         = Descriptive.mean d + t_critical * Descriptive.se d).
Proof.
  split; [reflexivity|].
  intros a Ha. apply analyze_Success in Ha.
  destruct Ha as (Hd & Hn & Hh & Ht & Hp).
  split; [|split; [|split; [|split]]].
  - intros e He. rewrite test_normality_map in Hn.
    bind_inv Hn as es Hes. ok_inv Hn. rewrite <- Hn in He; simpl in He.
    destruct (mapM_In_inv _ _ Hes _ He) as ([group label] & _ & Hgl).
    apply normality_entry_decision in Hgl. tauto.
  - intros d Hres. unfold test_homogeneity in Hh.
    destruct (len (groups data) <? 2)%Z.
    + ok_inv Hh. rewrite <- Hh in Hres. discriminate.
    + bind_inv Hh as lv Hlv. destruct lv as [ls lp].
      bind_inv Hh as bt Hbt. destruct bt as [bs bp]. ok_inv Hh.
      rewrite <- Hh in *. simpl in *. injection Hres as <-. reflexivity.
  - eapply perform_statistical_test_significant; eassumption.
  - intros r c Hr Hc.
    destruct ((len (groups data) >? 2)%Z && Test.significant (test a)).
    + destruct Hp as (r' & Hr' & Heq). rewrite Hr in Heq.
      injection Heq as <-.
      apply perform_post_hoc_Ok in Hr'. destruct Hr' as [Hall _].
      destruct (Hall c Hc)
        as (i & j & g1 & g2 & l1 & l2 & res & m & _ & _ & _ & _ & _ & _ & ->).
      reflexivity.
    + rewrite Hr in Hp. discriminate.
  - intros d Hin. eapply descriptive_interval; eassumption.
Qed.

(** The effect size of a single group is the one-sample Cohen's d, that of
    two groups found normal is Cohen's d. *)
Lemma one_group_effect_size (g : list num) (labels : list string)
  (is_normal equal_variance : bool) (t : Test.t num) :
  perform_statistical_test S self [g] labels is_normal equal_variance = Ok t ->
  Test.effect_size t = calculate_cohens_d_one_sample g (of_Z 0).
Proof.
  unfold perform_statistical_test. intros Ht.
  bind_inv Ht as chosen Hchosen.
  bind_inv Hchosen as tp Htp. destruct tp as [t_stat p].
  ok_inv Hchosen. ok_inv Ht. reflexivity.
Qed.

Lemma two_normal_groups_effect_size (g0 g1 : list num) (labels : list string)
  (equal_variance : bool) (t : Test.t num) :
  perform_statistical_test S self [g0; g1] labels true equal_variance = Ok t ->
  Test.effect_size t = calculate_cohens_d g0 g1.
Proof.
  unfold perform_statistical_test. intros Ht.
  bind_inv Ht as chosen Hchosen.
  bind_inv Hchosen as tested Htested.
  destruct tested as [[test_type t_stat] p].
  ok_inv Hchosen. ok_inv Ht. reflexivity.
Qed.

End Levels.

(** * The engine on concrete requests, in binary64 *)

Local Open Scope float_scope.

(** ** Zero variance *)

(** C2. The divisions of Cohen's d by the (pooled) standard deviation are
    not guarded.  Whenever the analysis of five identical values succeeds,
    the effect size in the response is infinite (values 5) or not-a-number
    (values 0); for two identical constant groups found normal it is
    not-a-number.  The response has no "undefined" marker for it: the
    field is the float itself. *)
Theorem zero_variance_effect_size_not_finite (S : stats.t float)
  (N : np.t float) :
  (forall a, analyze S N __init__ (one_group five_fives) = Success a ->
     Test.value (Test.effect_size (test a)) = infinity /\
     is_finite (Test.value (Test.effect_size (test a))) = false) /\
  (forall a, analyze S N __init__ (one_group five_zeros) = Success a ->
     PrimFloat.is_nan (Test.value (Test.effect_size (test a))) = true) /\
  (forall a,
     analyze S N __init__ (two_groups five_fives five_fives) = Success a ->
     Normality.all_normal (normality a) = true ->
     PrimFloat.is_nan (Test.value (Test.effect_size (test a))) = true).
Proof.
  split; [|split]; intros a Ha.
  - apply analyze_Success in Ha. destruct Ha as (_ & _ & _ & Ht & _).
    simpl in Ht. apply one_group_effect_size in Ht. rewrite Ht.
    split; vm_compute; reflexivity.
  - apply analyze_Success in Ha. destruct Ha as (_ & _ & _ & Ht & _).
    simpl in Ht. apply one_group_effect_size in Ht. rewrite Ht.
    vm_compute; reflexivity.
  - intros Hn. apply analyze_Success in Ha.
    destruct Ha as (_ & _ & _ & Ht & _).
    simpl in Ht. rewrite Hn in Ht.
    apply two_normal_groups_effect_size in Ht. rewrite Ht.
    vm_compute; reflexivity.
Qed.

(** The three analyses do succeed when the libraries answer. *)
Lemma zero_variance_effect_size_not_finite_witness :
  exists a,
    analyze (stand_in_stats 0.5 0.5 0.5) stand_in_np __init__
            (one_group five_fives) = Success a /\
    Test.value (Test.effect_size (test a)) = infinity /\
    is_finite (Test.value (Test.effect_size (test a))) = false.
Proof.
  eexists. split; [vm_compute; reflexivity|].
  apply (proj1 (zero_variance_effect_size_not_finite
                  (stand_in_stats 0.5 0.5 0.5) stand_in_np)).
  vm_compute; reflexivity.
Defined.

(** ** Tukey HSD *)

(** C3. The raw p-value of [tukey_hsd_pair] is 1 - Phi(q / sqrt 2), half of
    the 2 (1 - Phi(q / sqrt 2)) of the specification.  For two groups of
    equal means (q = 0) it is 0.5 where the specification gives 1. *)
Theorem tukey_p_value_is_one_sided :
  (forall (num : Type) (H : Number num) (S : stats.t num)
          (groups : list (list num)) (gi gj : list num) (r : Pair.t num),
     tukey_hsd_pair S gi gj (len groups) groups = Ok r ->
     Pair.p_value r
     = sub (of_Z 1)
           (stats.norm_cdf S (div (tukey_q groups gi gj) (sqrt (of_Z 2)))) /\
     tukey_p_claimed S groups gi gj = mul (of_Z 2) (Pair.p_value r)) /\
  (forall S : stats.t float,
     stats.norm_cdf S 0 = 0.5 ->
     tukey_hsd_pair S [1; 3] [1; 3] 3 tukey_groups
     = Ok {| Pair.p_value := 0.5;
             Pair.ci_lower := -3.5;
             Pair.ci_upper := 3.5 |} /\
     tukey_p_claimed S tukey_groups [1; 3] [1; 3] = 1).
Proof.
  split.
  - intros num H S groups gi gj r Hr.
    apply tukey_p_value_code. exact Hr.
  - intros S HS. destruct S; simpl in HS. split.
    + vm_compute. rewrite HS. vm_compute. reflexivity.
    + vm_compute. rewrite HS. reflexivity.
Qed.

Lemma tukey_p_value_is_one_sided_witness :
  stats.norm_cdf (stand_in_stats 0.5 0.5 0.01) 0 = 0.5 /\
  tukey_hsd_pair (stand_in_stats 0.5 0.5 0.01) [1; 3] [1; 3] 3 tukey_groups
  = Ok {| Pair.p_value := 0.5; Pair.ci_lower := -3.5; Pair.ci_upper := 3.5 |} /\
  tukey_p_claimed (stand_in_stats 0.5 0.5 0.01) tukey_groups [1; 3] [1; 3] = 1.
Proof.
  split; [vm_compute; reflexivity|].
  apply (proj2 tukey_p_value_is_one_sided).
  vm_compute; reflexivity.
Defined.

(** ** Dunn's test *)

(** C4. [dunn_test_pair] does not compute the statistic of the
    specification.  The pair enters by its sizes only, so the mean ranks
    are those of the first n1 and the next n2 pooled observations: for the
    first and third of [dunn_groups] the code gets z = 2 / sqrt 3.5 (mean
    ranks 1.5 and 3.5) where the specification gives 4 / sqrt 3.5 (mean
    ranks 1.5 and 5.5).  The variance of the ranks is N (N+1) / 12 also
    when ties exist: for the first two of [tied_groups] the code divides by
    sqrt 3.5, the specification by sqrt 17.6.  In general z is
    |mean(ranks[:n1]) - mean(ranks[n1:n1+n2])|
    / sqrt(N (N+1) / 12 * (1/n1 + 1/n2)). *)
Theorem dunn_pair_uses_leading_ranks :
  (forall (num : Type) (H : Number num) (S : stats.t num)
          (group1 group2 group1' group2' : list num)
          (all_groups : list (list num)),
     length group1 = length group1' ->
     length group2 = length group2' ->
     dunn_test_pair S group1 group2 all_groups
     = dunn_test_pair S group1' group2' all_groups) /\
  (forall S : stats.t float,
     stats.rankdata S [1; 2; 3; 4; 5; 6] = Ok [1; 2; 3; 4; 5; 6] ->
     dunn_z S [1; 2] [5; 6] dunn_groups = Ok (2 / sqrt 3.5) /\
     dunn_z_claimed [1; 2; 3; 4; 5; 6] dunn_groups 0 2 = 4 / sqrt 3.5) /\
  (forall S : stats.t float,
     stats.rankdata S [1; 1; 2; 3; 4; 5] = Ok [1.5; 1.5; 3; 4; 5; 6] ->
     dunn_z S [1; 1] [2; 3] tied_groups = Ok (2 / sqrt 3.5) /\
     dunn_z_claimed [1.5; 1.5; 3; 4; 5; 6] tied_groups 0 1 = 2 / sqrt 17.6) /\
  (forall (num : Type) (H : Number num) (S : stats.t num)
          (group1 group2 : list num) (all_groups : list (list num)) (z : num),
     dunn_z S group1 group2 all_groups = Ok z ->
     exists ranks,
       stats.rankdata S (List.concat all_groups) = Ok ranks /\
       let n := len (List.concat all_groups) in
       z = (abs (np_mean (firstn (length group1) ranks)
                 - np_mean (firstn (length group2)
                                   (skipn (length group1) ranks)))
            / sqrt (of_Z (n * (n + 1)) / of_Z 12
                    * (of_Z 1 / of_Z (len group1)
                       + of_Z 1 / of_Z (len group2))))%num).
Proof.
  split; [|split; [|split]]; [| | |intros; apply dunn_z_code; assumption].
  - intros num H S g1 g2 g1' g2' gs H1 H2.
    apply dunn_pair_depends_on_sizes; assumption.
  - intros S HS. destruct S; simpl in HS. split.
    + unfold dunn_z. simpl np_concatenate. unfold bind at 1.
      simpl stats.rankdata. rewrite HS. vm_compute. reflexivity.
    + vm_compute. reflexivity.
  - intros S HS. destruct S; simpl in HS. split.
    + unfold dunn_z. simpl np_concatenate. unfold bind at 1.
      simpl stats.rankdata. rewrite HS. vm_compute. reflexivity.
    + vm_compute. reflexivity.
Qed.

Lemma dunn_pair_uses_leading_ranks_witness :
  stats.rankdata (stand_in_stats 0.01 0.5 0.01) [1; 2; 3; 4; 5; 6]
  = Ok [1; 2; 3; 4; 5; 6] /\
  dunn_z (stand_in_stats 0.01 0.5 0.01) [1; 2] [5; 6] dunn_groups
  = Ok (2 / sqrt 3.5) /\
  dunn_z_claimed [1; 2; 3; 4; 5; 6] dunn_groups 0 2 = 4 / sqrt 3.5.
Proof.
  split; [vm_compute; reflexivity|].
  apply (proj1 (proj2 dunn_pair_uses_leading_ranks)).
  vm_compute; reflexivity.
Defined.

(** ** A sample of two observations *)

Lemma small_sample_goes_to_shapiro_witness :
  In (two_observations, "x"%string)
     (combine (groups (one_group two_observations))
              (request_labels (one_group two_observations))) /\
  (len two_observations < 3)%Z /\
  stats.shapiro (stand_in_stats 0.5 0.5 0.5) two_observations
  = Raise (ValueError "Data must be at least length 3.") /\
  success (analyze (stand_in_stats 0.5 0.5 0.5) stand_in_np __init__
                   (one_group two_observations)) = false.
Proof.
  split; [left; reflexivity|].
  split; [reflexivity|].
  split; [reflexivity|].
  apply (proj1 (@small_sample_goes_to_shapiro float _
                  (stand_in_stats 0.5 0.5 0.5) stand_in_np __init__
                  (one_group two_observations) two_observations "x"%string
                  (or_introl eq_refl) eq_refl)
               (ValueError "Data must be at least length 3.")).
  reflexivity.
Defined.

(** ** The options of the request *)

(** C5. The engine never reads the options of a request: they change
    nothing in the response, and every decision of a successful analysis
    uses the levels that [__init__] fixes.  Each p-value is compared with
    0.05 (normality, homogeneity, omnibus test, post-hoc), and the
    confidence interval of each sample uses the t quantile at
    (1 + 0.95) / 2, whatever [options.alpha] and [options.confidence]
    say. *)
Theorem options_are_ignored (num : Type) (H : Number num)
  (S : stats.t num) (N : np.t num) (data : Request num)
  (o : option (Options num)) :
  analyze S N __init__
    {| groups := groups data; labels := labels data; options := o |}
  = analyze S N __init__ data /\
  forall a, analyze S N __init__ data = Success a ->
    (forall e, In e (Normality.results (normality a)) ->
       Normality.is_normal e = ltb (dec 5 100) (Normality.p_value e)) /\
    (forall d, Homogeneity.results (homogeneity a) = Some d ->
       Homogeneity.equal_variance (homogeneity a)
       = ltb (dec 5 100) (Homogeneity.p_value (Homogeneity.levene d))) /\
    Test.significant (test a) = ltb (Test.p_value (test a)) (dec 5 100) /\
    (forall r c, post_hoc a = Some r -> In c (PostHoc.comparisons r) ->
       PostHoc.significant c = ltb (PostHoc.adjusted_p c) (dec 5 100)) /\
    (forall d, In d (descriptive a) ->
       let t_critical :=
         stats.t_ppf S (div (add (of_Z 1) (dec 95 100)) (of_Z 2))
                       (of_Z (Descriptive.n d - 1)) in
       Descriptive.ci95_lower d
         = sub (Descriptive.mean d) (mul t_critical (Descriptive.se d)) /\
       Descriptive.ci95_upper d
         = add (Descriptive.mean d) (mul t_critical (Descriptive.se d))).
Proof.
  exact (decisions_use_engine_levels S N __init__ data o).
Qed.

(** The request with alpha = 0.01 and confidence 0.99 is answered as the
    same request without options: the t-test of p-value 0.0132 is reported
    significant, where the level of the request gives the opposite. *)
Lemma options_are_ignored_witness :
  analyze one_to_five_stats stand_in_np __init__ request_alpha_01
  = analyze one_to_five_stats stand_in_np __init__
            {| groups := groups request_alpha_01;
               labels := labels request_alpha_01;
               options := None |} /\
  exists a,
    analyze one_to_five_stats stand_in_np __init__ request_alpha_01
      = Success a /\
    request_alpha request_alpha_01 = 0.01 /\
    Test.p_value (test a) = 0.0132 /\
    Test.significant (test a) = true /\
    PrimFloat.ltb (Test.p_value (test a)) (request_alpha request_alpha_01)
      = false.
Proof.
  split.
  - symmetry.
    apply (proj1 (@options_are_ignored float _
                    one_to_five_stats stand_in_np
                    request_alpha_01 None)).
  - eexists. split; [vm_compute; reflexivity|].
    split; [reflexivity|]. split; [reflexivity|].
    split; vm_compute; reflexivity.
Defined.

(** ** The sample request of the source *)

(** C10. In the Welch branch the effect size is the omega-squared formula
    applied to the F statistic of [stats.f_oneway] on the same groups, while
    the statistic reported is Welch's F.  On the sample request of the
    source the two differ: the ordinary F is about 205.4 and Welch's F about
    368.4, and the omega-squared of the response is not the one Welch's F
    would give. *)
Theorem omega_squared_from_plain_anova :
  (forall (num : Type) (H : Number num) (S : stats.t num) (N : np.t num)
          (self : StatisticsEngine num) (data : Request num)
          (a : Analysis num),
     analyze S N self data = Success a ->
     (len (groups data) > 2)%Z ->
     Normality.all_normal (normality a) = true ->
     Homogeneity.equal_variance (homogeneity a) = false ->
     exists f_stat p,
       stats.f_oneway S (groups data) = Ok (f_stat, p) /\
       omega_of (groups data) f_stat
         = Ok (Test.value (Test.effect_size (test a))) /\
       Test.statistic (test a) = fst (welch_anova S (groups data))) /\
  (exists a f_stat p w,
     analyze unequal_variance_stats stand_in_np __init__ sample_data
       = Success a /\
     Test.test_type (test a) = "Welch's ANOVA"%string /\
     stats.f_oneway unequal_variance_stats (groups sample_data)
       = Ok (f_stat, p) /\
     PrimFloat.ltb f_stat 206 = true /\
     PrimFloat.ltb 368 (Test.statistic (test a)) = true /\
     omega_of (groups sample_data) f_stat
       = Ok (Test.value (Test.effect_size (test a))) /\
     omega_of (groups sample_data) (Test.statistic (test a)) = Ok w /\
     PrimFloat.ltb (Test.value (Test.effect_size (test a))) w = true).
Proof.
  split.
  - intros num H S N self data a Ha Hk Hn He.
    eapply welch_effect_size; eassumption.
  - do 4 eexists.
    split; [vm_compute; reflexivity|].
    split; [reflexivity|].
    split; [vm_compute; reflexivity|].
    split; [vm_compute; reflexivity|].
    split; [vm_compute; reflexivity|].
    split; [vm_compute; reflexivity|].
    split; [vm_compute; reflexivity|].
    vm_compute; reflexivity.
Qed.

Lemma omega_squared_from_plain_anova_witness :
  exists a f_stat p,
    analyze unequal_variance_stats stand_in_np __init__ sample_data
      = Success a /\
    (len (groups sample_data) > 2)%Z /\
    Normality.all_normal (normality a) = true /\
    Homogeneity.equal_variance (homogeneity a) = false /\
    stats.f_oneway unequal_variance_stats (groups sample_data)
      = Ok (f_stat, p) /\
    omega_of (groups sample_data) f_stat
      = Ok (Test.value (Test.effect_size (test a))).
Proof.
  assert (Ha : exists a,
             analyze unequal_variance_stats stand_in_np __init__ sample_data
             = Success a /\
             Normality.all_normal (normality a) = true /\
             Homogeneity.equal_variance (homogeneity a) = false).
  { eexists. split; [vm_compute; reflexivity|]. split; reflexivity. }
  destruct Ha as (a & Ha & Hn & He).
  destruct (proj1 omega_squared_from_plain_anova float _
              unequal_variance_stats stand_in_np __init__ sample_data a
              Ha eq_refl Hn He) as (f_stat & p & Hf & Ho & _).
  exists a, f_stat, p. repeat split; assumption.
Defined.

Lemma welch_anova_derivation_witness :
  exists a,
    analyze unequal_variance_stats stand_in_np __init__ sample_data
      = Success a /\
    (len (groups sample_data) > 2)%Z /\
    Normality.all_normal (normality a) = true /\
    Homogeneity.equal_variance (homogeneity a) = false /\
    Test.test_type (test a) = "Welch's ANOVA"%string /\
    Test.statistic (test a) = welch_F (groups sample_data).
Proof.
  assert (Ha : exists a,
             analyze unequal_variance_stats stand_in_np __init__ sample_data
             = Success a /\
             Normality.all_normal (normality a) = true /\
             Homogeneity.equal_variance (homogeneity a) = false).
  { eexists. split; [vm_compute; reflexivity|]. split; reflexivity. }
  destruct Ha as (a & Ha & Hn & He).
  destruct (@welch_anova_derivation float _ unequal_variance_stats
              stand_in_np __init__ sample_data a Ha eq_refl Hn He)
    as (Ht & Hs & _).
  exists a. repeat split; assumption.
Defined.

Lemma post_hoc_iff_many_groups_and_significant_witness :
  exists a,
    analyze unequal_variance_stats stand_in_np __init__ sample_data
      = Success a /\
    (post_hoc a <> None <->
     (len (groups sample_data) > 2)%Z /\
     Test.significant (test a) = true).
Proof.
  assert (Ha : exists a,
             analyze unequal_variance_stats stand_in_np __init__ sample_data
             = Success a).
  { eexists. vm_compute; reflexivity. }
  destruct Ha as (a & Ha). exists a. split; [exact Ha|].
  exact (proj1 (@post_hoc_iff_many_groups_and_significant float _
                  unequal_variance_stats stand_in_np __init__
                  sample_data a Ha)).
Defined.

Lemma homogeneity_decision_is_levene_witness :
  (2 <= len (groups sample_data))%Z /\
  exists h ls lp bs bp,
    test_homogeneity unequal_variance_stats __init__ (groups sample_data)
                     ["A"; "B"; "C"]%string = Ok h /\
    stats.levene unequal_variance_stats (groups sample_data) = Ok (ls, lp) /\
    stats.bartlett unequal_variance_stats (groups sample_data)
      = Ok (bs, bp) /\
    Homogeneity.equal_variance h = PrimFloat.ltb 0.05 lp.
Proof.
  split; [vm_compute; discriminate|].
  assert (Hh : exists h,
             test_homogeneity unequal_variance_stats __init__
               (groups sample_data) ["A"; "B"; "C"]%string = Ok h).
  { eexists. vm_compute; reflexivity. }
  destruct Hh as (h & Hh).
  destruct (proj1 (@homogeneity_decision_is_levene float _
                     unequal_variance_stats __init__ (groups sample_data)
                     ["A"; "B"; "C"]%string)
                  ltac:(vm_compute; discriminate) h Hh)
    as (ls & lp & bs & bp & Hl & Hb & _ & He).
  exists h, ls, lp, bs, bp. repeat split; assumption.
Defined.

(** ** The Bonferroni adjustment *)



(** ** A post-hoc analysis over the reals *)

Local Open Scope R_scope.

Lemma uniform_cdf_range (x : R) : 0 <= uniform_cdf (-2) 2 x <= 1.
Proof.
  unfold uniform_cdf; simpl; unfold Rltb.
  destruct (Rlt_dec x (-2)); [lra|].
  destruct (Rlt_dec 2 x); lra.
Qed.

Lemma uniform_cdf_half (x : R) : 0 <= x -> 1 / 2 <= uniform_cdf (-2) 2 x.
Proof.
  intros Hx. unfold uniform_cdf; simpl; unfold Rltb.
  destruct (Rlt_dec x (-2)); [lra|].
  destruct (Rlt_dec 2 x); lra.
Qed.

(** The Games-Howell comparisons of the three groups are computed. *)
Lemma real_post_hoc_runs :
  exists r c,
    perform_post_hoc real_stats __init__ real_groups ["A"; "B"; "C"]%string
                     "Welch's ANOVA" true false = Ok r /\
    In c (PostHoc.comparisons r).
Proof.
  assert (Hpair : forall g1 g2,
            post_hoc_pair real_stats __init__ real_groups "Welch's ANOVA"
                          false g1 g2
            = Ok (Some (games_howell_pair real_stats __init__ g1 g2,
                        "Games-Howell"%string))) by reflexivity.
  assert (Hnc : eqb (n_comparisons_of real_groups) (of_Z 0) = false).
  { unfold n_comparisons_of, len; simpl; unfold Reqb.
    destruct (Req_dec_T (6 / 2) 0) as [Heq|_]; [lra | reflexivity]. }
  unfold perform_post_hoc.
  cbn [length real_groups pairs flat_map seq map app Nat.add Nat.sub foldM].
  unfold post_hoc_step.
  cbn [fst snd getitem nth_error real_groups bind].
  rewrite !Hpair.
  cbn [bind loc_comparisons loc_method loc_n_comparisons app].
  unfold float_truediv.
  change (of_Z (len real_groups * (len real_groups - 1)) / of_Z 2)%num
    with (n_comparisons_of real_groups).
  rewrite Hnc. cbn [bind].
  eexists. eexists. split; [reflexivity | left; reflexivity].
Qed.


(** * Further properties of the engine *)

Local Close Scope R_scope.
Local Close Scope float_scope.

(** ** Loops *)

Lemma mapM_Forall2 {A B : Type} (f : A -> result B) (l : list A)
  (bs : list B) :
  mapM f l = Ok bs -> Forall2 (fun a b => f a = Ok b) l bs.
Proof.
  revert bs; induction l as [|x l IH]; intros bs Hm.
  - ok_inv Hm. constructor.
  - simpl in Hm. bind_inv Hm as b Hb. bind_inv Hm as bs' Hbs. ok_inv Hm.
    constructor; [assumption | apply IH; assumption].
Qed.

(** A loop that ends without raising ran every iteration without raising. *)
Lemma foldM_steps {A St : Type} (f : St -> A -> result St) (l : list A) :
  forall s s', foldM f l s = Ok s' ->
  forall a, In a l -> exists s1 s2, f s1 a = Ok s2.
Proof.
  induction l as [|x l IH]; intros s s' Hf a Ha.
  - destruct Ha.
  - simpl in Hf. bind_inv Hf as s1 Hs1. destruct Ha as [<-|Ha].
    + exists s, s1. assumption.
    + apply (IH _ _ Hf a Ha).
Qed.

(** ** The decision table *)

Section DecisionTable.

Context {num : Type} `{Number num}.
Variable S : stats.t num.
Variable N : np.t num.
Variable self : StatisticsEngine num.

Local Open Scope num_scope.

Lemma perform_statistical_test_type (groups : list (list num))
  (labels : list string) (is_normal equal_variance : bool) (t : Test.t num) :
  perform_statistical_test S self groups labels is_normal equal_variance
    = Ok t ->
  Test.test_type t = selected_test (length groups) is_normal equal_variance.
Proof.
  unfold perform_statistical_test. intros Ht.
  bind_inv Ht as chosen Hchosen.
  destruct chosen as [[[test_type t_stat] p] effect_size].
  ok_inv Ht. simpl.
  destruct groups as [|g0 [|g1 [|g2 rest]]]; simpl.
  - destruct is_normal; [destruct equal_variance|].
    + bind_inv Hchosen as fp Hfp. destruct fp as [f q].
      bind_inv Hchosen as e He. ok_inv Hchosen. reflexivity.
    + destruct (welch_anova S []) as [f q].
      bind_inv Hchosen as e He. ok_inv Hchosen. reflexivity.
    + bind_inv Hchosen as hp Hhp. destruct hp as [h q].
      ok_inv Hchosen. reflexivity.
  - bind_inv Hchosen as tp Htp. destruct tp as [ts q].
    ok_inv Hchosen. reflexivity.
  - destruct is_normal.
    + bind_inv Hchosen as tested Htested.
      destruct tested as [[ty ts] q]. ok_inv Hchosen.
      destruct equal_variance; bind_inv Htested as tp Htp;
        destruct tp as [ts' q']; ok_inv Htested; reflexivity.
    + bind_inv Hchosen as up Hup. destruct up as [u q].
      bind_inv Hchosen as e He. ok_inv Hchosen. reflexivity.
  - destruct is_normal; [destruct equal_variance|].
    + bind_inv Hchosen as fp Hfp. destruct fp as [f q].
      bind_inv Hchosen as e He. ok_inv Hchosen. reflexivity.
    + destruct (welch_anova S (g0 :: g1 :: g2 :: rest)) as [f q].
      bind_inv Hchosen as e He. ok_inv Hchosen. reflexivity.
    + bind_inv Hchosen as hp Hhp. destruct hp as [h q].
      ok_inv Hchosen. reflexivity.
Qed.

(** X1. In every successful analysis the omnibus test is the one the
    decision table gives for the number of groups, [all_normal] and
    [equal_variance] of the same response; a single group always has
    [equal_variance] true, and its test is the one-sample t-test whatever
    the normality stage found. *)
Theorem test_follows_decision_table (data : Request num) (a : Analysis num) :
  analyze S N self data = Success a ->
  Test.test_type (test a)
  = selected_test (length (groups data))
                  (Normality.all_normal (normality a))
                  (Homogeneity.equal_variance (homogeneity a)) /\
  (length (groups data) <= 1 ->
   Homogeneity.equal_variance (homogeneity a) = true)%nat /\
  (length (groups data) = 1%nat ->
   Test.test_type (test a) = "One-sample t-test"%string).
Proof.
  intros Ha. apply analyze_Success in Ha.
  destruct Ha as (_ & _ & Hh & Ht & _).
  apply perform_statistical_test_type in Ht.
  split; [exact Ht|]. split.
  - intros Hk. unfold test_homogeneity in Hh.
    destruct (Z.ltb_spec (len (groups data)) 2) as [_|Hge];
      [|unfold len in Hge; lia].
    ok_inv Hh. rewrite <- Hh. reflexivity.
  - intros Hk. rewrite Ht, Hk. reflexivity.
Qed.

End DecisionTable.

(** ** The loop of the post-hoc analysis *)

Lemma pairs_length_from (n a m : nat) :
  (a + m = n)%nat ->
  (2 * length (flat_map
                 (fun i => map (fun j => (i, j)) (seq (i + 1) (n - (i + 1))))
                 (seq a m))
   = m * (m - 1))%nat.
Proof.
  revert a; induction m as [|m IH]; intros a Ham; [reflexivity|].
  simpl seq. simpl flat_map.
  rewrite length_app, length_map, length_seq.
  specialize (IH (Datatypes.S a) ltac:(lia)).
  replace (n - (a + 1))%nat with m by lia.
  destruct m as [|m']; [simpl in *; lia|].
  simpl in IH |- *. nia.
Qed.

Lemma pairs_length (n : nat) : (2 * length (pairs n) = n * (n - 1))%nat.
Proof. unfold pairs. apply (@pairs_length_from n 0 n). reflexivity. Qed.

Lemma getitem_Ok {A : Type} (l : list A) (i : nat) (a : A) :
  getitem l i = Ok a <-> nth_error l i = Some a.
Proof.
  unfold getitem. destruct (nth_error l i) as [x|]; split; intros Hx;
    try discriminate; injection Hx as ->; reflexivity.
Qed.

Section PostHocLoop.

Context {num : Type} `{Number num}.
Variable S : stats.t num.
Variable self : StatisticsEngine num.

Local Open Scope num_scope.

Variable groups : list (list num).
Variable labels : list string.
Variable test_type : string.
Variable equal_variance : bool.

Lemma post_hoc_pair_method (group1 group2 : list num)
  (chosen : option (Pair.t num * string)) :
  post_hoc_pair S self groups test_type equal_variance group1 group2
    = Ok chosen ->
  match post_hoc_method_of test_type equal_variance with
  | Some m => exists res, chosen = Some (res, m)
  | None => chosen = None
  end.
Proof.
  unfold post_hoc_pair, post_hoc_method_of. intros Hc.
  destruct (contains "ANOVA" test_type).
  - destruct equal_variance.
    + bind_inv Hc as res Hres. ok_inv Hc. exists res; reflexivity.
    + ok_inv Hc. eexists; reflexivity.
  - destruct (contains "Kruskal" test_type).
    + bind_inv Hc as res Hres. ok_inv Hc. exists res; reflexivity.
    + ok_inv Hc. reflexivity.
Qed.

(** The state of the loop after the pairs [l]: with a supported test type,
    one entry per pair, in order; otherwise nothing changes. *)
Lemma post_hoc_loop (l : list (nat * nat)) :
  forall st st',
    foldM (post_hoc_step S self groups labels test_type equal_variance) l st
      = Ok st' ->
    match post_hoc_method_of test_type equal_variance with
    | Some m =>
        exists cs,
          loc_comparisons st' = loc_comparisons st ++ cs /\
          Forall2 (pair_entry groups labels) l cs /\
          (l <> [] -> loc_method st' = Some m)
    | None => st' = st
    end.
Proof.
  induction l as [|ij l IH]; intros st st' Hf.
  - ok_inv Hf. destruct (post_hoc_method_of test_type equal_variance).
    + exists []. rewrite app_nil_r.
      split; [reflexivity|]. split; [constructor|].
      intros Hne; contradiction Hne; reflexivity.
    + reflexivity.
  - simpl in Hf. bind_inv Hf as st1 Hstep.
    specialize (IH _ _ Hf).
    unfold post_hoc_step in Hstep.
    bind_inv Hstep as group1 Hg1. bind_inv Hstep as group2 Hg2.
    bind_inv Hstep as label1 Hl1. bind_inv Hstep as label2 Hl2.
    bind_inv Hstep as chosen Hch.
    apply post_hoc_pair_method in Hch.
    apply getitem_Ok in Hg1, Hg2, Hl1, Hl2.
    destruct (post_hoc_method_of test_type equal_variance) as [m|].
    + destruct Hch as [res ->]. ok_inv Hstep.
      destruct IH as (cs & Hcs & Hall & Hm). simpl in Hcs.
      eexists (_ :: cs). split; [|split].
      * rewrite Hcs, <- app_assoc. reflexivity.
      * constructor; [|assumption].
        exists group1, group2. simpl. repeat split; assumption.
      * intros _. destruct l as [|ij' l'].
        -- ok_inv Hf. reflexivity.
        -- apply Hm. discriminate.
    + subst chosen. injection Hstep as <-. exact IH.
Qed.

(** What [perform_post_hoc] returns: the entries, the method, the count. *)
Lemma perform_post_hoc_pairs (is_normal : bool) (r : PostHoc.t num) :
  perform_post_hoc S self groups labels test_type is_normal equal_variance
    = Ok r ->
  Forall2 (pair_entry groups labels) (pairs (length groups))
          (PostHoc.comparisons r) /\
  post_hoc_method_of test_type equal_variance = Some (PostHoc.method r) /\
  (2 * length (PostHoc.comparisons r)
   = length groups * (length groups - 1))%nat /\
  (2 <= length groups)%nat.
Proof.
  unfold perform_post_hoc. intros Hr. bind_inv Hr as st Hst.
  pose proof (post_hoc_loop _ _ Hst) as Hloop.
  destruct (post_hoc_method_of test_type equal_variance) as [m|].
  - destruct Hloop as (cs & Hcs & Hall & Hm). simpl in Hcs.
    destruct (pairs (length groups)) as [|ij l] eqn:Hpairs.
    + ok_inv Hst. discriminate Hr.
    + rewrite (Hm ltac:(discriminate)) in Hr.
      destruct (loc_n_comparisons st) as [nc|]; [|discriminate].
      bind_inv Hr as alpha Halpha. injection Hr as <-. simpl.
      rewrite Hcs. split; [assumption|]. split; [reflexivity|].
      assert (Hlen : length cs = length (pairs (length groups))).
      { rewrite Hpairs. symmetry. apply (Forall2_length Hall). }
      pose proof (pairs_length (length groups)) as Hp.
      rewrite Hlen. split; [exact Hp|].
      rewrite Hpairs in Hp. simpl in Hp. nia.
  - subst st. discriminate Hr.
Qed.

(** X2. When [perform_post_hoc] returns, there are at least two groups,
    the name of the test contains "ANOVA" or "Kruskal" and fixes the
    method, and the comparisons are the pairs i < j of groups in the order
    of the two loops (i ascending, then j): one entry per pair, k (k-1) / 2
    in all, each with the labels of its two groups and the difference
    mean_i - mean_j. *)
Theorem post_hoc_enumerates_pairs (is_normal : bool) (r : PostHoc.t num) :
  perform_post_hoc S self groups labels test_type is_normal equal_variance
    = Ok r ->
  Forall2 (pair_entry groups labels) (pairs (length groups))
          (PostHoc.comparisons r) /\
  post_hoc_method_of test_type equal_variance = Some (PostHoc.method r) /\
  (2 * length (PostHoc.comparisons r)
   = length groups * (length groups - 1))%nat /\
  (2 <= length groups)%nat.
Proof. exact (@perform_post_hoc_pairs is_normal r). Qed.

(** X3. [perform_post_hoc] raises, on the unbound local [method], when
    there are fewer than two groups (the loops have no pair), and when
    the name of the test has neither "ANOVA" nor "Kruskal" and every group
    has a label (every pair is skipped): it never returns an empty list of
    comparisons. *)
Theorem post_hoc_without_comparison_raises (is_normal : bool) :
  ((length groups < 2)%nat \/
   (post_hoc_method_of test_type equal_variance = None /\
    (length groups <= length labels)%nat)) ->
  perform_post_hoc S self groups labels test_type is_normal equal_variance
  = Raise (UnboundLocalError
             "cannot access local variable 'method' where it is not associated with a value").
Proof.
  intros [Hk|[Hnone Hlabels]].
  - unfold perform_post_hoc.
    destruct groups as [|g0 [|g1 rest]]; try reflexivity.
    simpl in Hk; lia.
  - unfold perform_post_hoc.
    assert (Hloop : forall l st,
              (forall ij, In ij l -> (fst ij < snd ij < length groups)%nat) ->
              foldM (post_hoc_step S self groups labels test_type
                                   equal_variance) l st = Ok st).
    { induction l as [|ij l IH]; intros st Hl; [reflexivity|].
      simpl. unfold post_hoc_step at 1.
      destruct (Hl ij (or_introl eq_refl)) as [Hi Hj].
      destruct (nth_error groups (fst ij)) as [g1|] eqn:Hg1;
        [|apply nth_error_None in Hg1; lia].
      destruct (nth_error groups (snd ij)) as [g2|] eqn:Hg2;
        [|apply nth_error_None in Hg2; lia].
      destruct (nth_error labels (fst ij)) as [l1|] eqn:Hl1;
        [|apply nth_error_None in Hl1; lia].
      destruct (nth_error labels (snd ij)) as [l2|] eqn:Hl2;
        [|apply nth_error_None in Hl2; lia].
      apply getitem_Ok in Hg1, Hg2, Hl1, Hl2.
      rewrite Hg1, Hg2, Hl1, Hl2. simpl.
      destruct (post_hoc_pair S self groups test_type equal_variance g1 g2)
        as [chosen|e] eqn:Hch.
      - apply post_hoc_pair_method in Hch. rewrite Hnone in Hch.
        subst chosen. simpl. apply IH.
        intros ij' Hin. apply Hl. right; assumption.
      - exfalso. unfold post_hoc_pair, post_hoc_method_of in *.
        destruct (contains "ANOVA" test_type); [discriminate Hnone|].
        destruct (contains "Kruskal" test_type); discriminate. }
    rewrite Hloop; [reflexivity|].
    intros [i j] Hin. apply pairs_spec in Hin. exact Hin.
Qed.

(** The last group has no label: the loop cannot finish. *)
Lemma perform_post_hoc_short_labels (is_normal : bool)
  (r : PostHoc.t num) :
  (2 <= length groups)%nat ->
  (length labels < length groups)%nat ->
  perform_post_hoc S self groups labels test_type is_normal equal_variance
  <> Ok r.
Proof.
  intros Hk Hlabels Hr. unfold perform_post_hoc in Hr.
  bind_inv Hr as st Hst.
  destruct (foldM_steps _ _ _ Hst (0%nat, (length groups - 1)%nat))
    as (s1 & s2 & Hstep).
  { apply pairs_spec. lia. }
  unfold post_hoc_step in Hstep. simpl fst in Hstep. simpl snd in Hstep.
  bind_inv Hstep as group1 Hg1. bind_inv Hstep as group2 Hg2.
  bind_inv Hstep as label1 Hl1. bind_inv Hstep as label2 Hl2.
  apply getitem_Ok in Hl2.
  assert (Hsome : nth_error labels (length groups - 1) <> None)
    by (rewrite Hl2; discriminate).
  apply nth_error_Some in Hsome. lia.
Qed.

(** X4. With fewer labels than groups (and at least two groups)
    [perform_post_hoc] never returns: the pair of the first and the last
    group needs a label that does not exist. *)
Theorem post_hoc_needs_a_label_per_group (is_normal : bool)
  (r : PostHoc.t num) :
  (2 <= length groups)%nat ->
  (length labels < length groups)%nat ->
  perform_post_hoc S self groups labels test_type is_normal equal_variance
  <> Ok r.
Proof. exact (@perform_post_hoc_short_labels is_normal r). Qed.

End PostHocLoop.

(** ** One entry per labelled sample *)

Lemma map_snd_combine {A B : Type} (l : list A) (l' : list B) :
  map snd (combine l l') = firstn (length l) l'.
Proof.
  revert l'; induction l as [|a l IH]; intros [|b l']; simpl;
    try reflexivity.
  rewrite IH. reflexivity.
Qed.

Lemma Forall2_map_eq {A B C : Type} (f : A -> C) (g : B -> C)
  (l : list A) (l' : list B) :
  Forall2 (fun a b => g b = f a) l l' -> map g l' = map f l.
Proof.
  induction 1 as [|a b l l' Hab _ IH]; simpl;
    [reflexivity | rewrite Hab, IH; reflexivity].
Qed.

Lemma default_labels_length (n : nat) : length (default_labels n) = n.
Proof. unfold default_labels. rewrite length_map, length_seq. reflexivity. Qed.

Section Entries.

Context {num : Type} `{Number num}.
Variable S : stats.t num.
Variable N : np.t num.
Variable self : StatisticsEngine num.

Local Open Scope num_scope.

Lemma descriptive_entry (groups : list (list num)) (labels : list string)
  (ds : list (Descriptive.t num)) :
  calculate_descriptive_stats S N self groups labels = Ok ds ->
  Forall2 (fun (gl : list num * string) d =>
             Descriptive.label d = snd gl /\
             Descriptive.n d = len (fst gl) /\
             Descriptive.mean d = np_mean (fst gl))
          (combine groups labels) ds.
Proof.
  unfold calculate_descriptive_stats. intros Hds.
  apply mapM_Forall2 in Hds.
  eapply Forall2_impl; [|exact Hds].
  intros [group label] d Hd. simpl in Hd.
  bind_inv Hd. bind_inv Hd. bind_inv Hd. bind_inv Hd. bind_inv Hd.
  ok_inv Hd. simpl. repeat split; reflexivity.
Qed.

(** The entries of [test_normality], sample by sample. *)
Lemma test_normality_entries (groups : list (list num))
  (labels : list string) (r : Normality.t num) :
  test_normality S self groups labels = Ok r ->
  Forall2 (fun (gl : list num * string) e =>
             Normality.label e = snd gl /\
             Normality.test e = normality_test_for (len (fst gl)) /\
             Normality.is_normal e
             = (Normality.p_value e >? significance_level self))
          (combine groups labels) (Normality.results r) /\
  Normality.all_normal r
  = forallb (@Normality.is_normal num) (Normality.results r).
Proof.
  rewrite test_normality_map. intros Hr.
  bind_inv Hr as es Hes. ok_inv Hr. simpl. split; [|reflexivity].
  apply mapM_Forall2 in Hes.
  eapply Forall2_impl; [|exact Hes].
  intros [group label] e He. simpl in He |- *.
  destruct (normality_entry_decision S self _ _ He) as (Hl & Hd & _).
  split; [assumption|]. split; [|assumption].
  unfold normality_test_for.
  unfold normality_entry in He.
  bind_inv He as tested Htest. destruct tested as [[st pv] tn].
  bind_inv He. bind_inv He. ok_inv He. simpl.
  destruct (len group <? 50)%Z;
    bind_inv Htest as wp Hwp; destruct wp as [w p]; ok_inv Htest;
    reflexivity.
Qed.

(** X5. [test_normality] returns one entry per sample that has a label, in
    the order of the samples; the entry carries the label, the test is
    Shapiro-Wilk below 50 observations and Kolmogorov-Smirnov from 50 on,
    and [is_normal] is p-value > significance level.  [all_normal] is the
    conjunction of the flags, hence true when there is no sample. *)
Theorem normality_entries_follow_samples (groups : list (list num))
  (labels : list string) (r : Normality.t num) :
  test_normality S self groups labels = Ok r ->
  Forall2 (fun (gl : list num * string) e =>
             Normality.label e = snd gl /\
             Normality.test e = normality_test_for (len (fst gl)) /\
             Normality.is_normal e
             = (Normality.p_value e >? significance_level self))
          (combine groups labels) (Normality.results r) /\
  Normality.all_normal r
  = forallb (@Normality.is_normal num) (Normality.results r).
Proof. exact (@test_normality_entries groups labels r). Qed.

(** X6. A successful analysis describes and tests exactly the samples that
    have a label: the descriptive and normality lists have
    min(number of groups, number of labels) entries, labelled by the first
    labels in order (labels beyond the groups are ignored).  Without
    [labels] in the request every group has an entry.  With fewer labels
    than groups no post-hoc analysis is ever returned. *)
Theorem entries_follow_labels (data : Request num) (a : Analysis num) :
  analyze S N self data = Success a ->
  map (@Descriptive.label num) (descriptive a)
  = firstn (length (groups data)) (request_labels data) /\
  map (@Normality.label num) (Normality.results (normality a))
  = firstn (length (groups data)) (request_labels data) /\
  length (descriptive a)
  = Nat.min (length (groups data)) (length (request_labels data)) /\
  (labels data = None -> length (descriptive a) = length (groups data)) /\
  ((length (request_labels data) < length (groups data))%nat ->
   post_hoc a = None).
Proof.
  intros Ha. apply analyze_Success in Ha.
  fold (request_labels data) in Ha.
  destruct Ha as (Hd & Hn & _ & _ & Hp).
  apply descriptive_entry in Hd.
  apply test_normality_entries in Hn. destruct Hn as [Hn _].
  assert (Hdl : map (@Descriptive.label num) (descriptive a)
                = firstn (length (groups data)) (request_labels data)).
  { rewrite <- map_snd_combine. apply Forall2_map_eq.
    eapply Forall2_impl; [|exact Hd]. intros gl d (Hl & _). exact Hl. }
  assert (Hlen : length (descriptive a)
                 = Nat.min (length (groups data))
                           (length (request_labels data))).
  { rewrite <- (length_map (@Descriptive.label num)), Hdl.
    apply length_firstn. }
  split; [exact Hdl|]. split; [|split; [exact Hlen|split]].
  - rewrite <- map_snd_combine. apply Forall2_map_eq.
    eapply Forall2_impl; [|exact Hn]. intros gl e (Hl & _). exact Hl.
  - intros Hnone. rewrite Hlen. unfold request_labels. rewrite Hnone.
    rewrite default_labels_length. apply Nat.min_id.
  - intros Hshort.
    destruct ((len (groups data) >? 2)%Z && Test.significant (test a))
      eqn:Hcond; [|exact Hp].
    destruct Hp as (r & Hr & _). exfalso.
    apply andb_prop in Hcond. destruct Hcond as [Hk _].
    apply Z.gtb_lt in Hk. unfold len in Hk.
    revert Hr. apply perform_post_hoc_short_labels; lia.
Qed.

(** X7. A request with no group never succeeds, whatever the libraries
    return: the empty list falls in the branch for more than two groups,
    where the ANOVA either raises or is followed by [np.concatenate] of no
    array, which raises. *)
Theorem no_group_fails (data : Request num) :
  groups data = [] -> success (analyze S N self data) = false.
Proof.
  intros Hg. unfold analyze, analyze_body. rewrite Hg. simpl.
  unfold perform_statistical_test. simpl.
  destruct (stats.f_oneway S []) as [[f p]|e]; reflexivity.
Qed.

(** X8. In a successful analysis with a post-hoc part, the method is Tukey
    HSD after the one-way ANOVA, Games-Howell after Welch's ANOVA and Dunn's
    test after Kruskal-Wallis; there are at least three comparisons; and
    after Kruskal-Wallis every comparison has both confidence bounds 0. *)
Theorem post_hoc_method_by_branch (data : Request num) (a : Analysis num)
  (r : PostHoc.t num) :
  analyze S N self data = Success a ->
  post_hoc a = Some r ->
  PostHoc.method r
  = selected_post_hoc (Normality.all_normal (normality a))
                      (Homogeneity.equal_variance (homogeneity a)) /\
  (3 <= length (PostHoc.comparisons r))%nat /\
  (Normality.all_normal (normality a) = false ->
   forall c, In c (PostHoc.comparisons r) ->
   PostHoc.ci_lower c = of_Z 0 /\ PostHoc.ci_upper c = of_Z 0).
Proof.
  intros Ha Hr. apply analyze_Success in Ha.
  destruct Ha as (_ & _ & _ & Ht & Hp).
  destruct ((len (groups data) >? 2)%Z && Test.significant (test a))
    eqn:Hcond; [|rewrite Hr in Hp; discriminate].
  destruct Hp as (r' & Hr' & Heq). rewrite Hr in Heq. injection Heq as <-.
  apply andb_prop in Hcond. destruct Hcond as [Hk _].
  apply Z.gtb_lt in Hk. unfold len in Hk.
  apply perform_statistical_test_type in Ht.
  destruct (length (groups data)) as [|[|[|k]]] eqn:Hlen; try lia.
  pose proof Hr' as Hpairs.
  apply perform_post_hoc_pairs in Hpairs.
  destruct Hpairs as (_ & Hmethod & Hcount & _).
  pose proof Hr' as Hall.
  apply perform_post_hoc_Ok in Hall. destruct Hall as [Hall _].
  rewrite Hlen in Hcount. rewrite Ht in Hmethod, Hall.
  split; [|split].
  - destruct (Normality.all_normal (normality a));
      [destruct (Homogeneity.equal_variance (homogeneity a))|];
      injection Hmethod as <-; reflexivity.
  - nia.
  - intros Hnormal c Hc. rewrite Hnormal in Hall.
    destruct (Hall c Hc)
      as (i & j & g1 & g2 & l1 & l2 & res & m & _ & _ & _ & _ & _ & Hpair & ->).
    simpl. unfold post_hoc_pair in Hpair. simpl in Hpair.
    bind_inv Hpair as res' Hres. injection Hpair as <- _.
    unfold dunn_test_pair in Hres. bind_inv Hres as z Hz. ok_inv Hres.
    split; reflexivity.
Qed.

End Entries.

(** ** Empty groups *)

Section EmptyGroups.

Context {num : Type} `{Number num}.
Variable S : stats.t num.

Local Open Scope num_scope.

(** X9. [tukey_hsd_pair] and [dunn_test_pair] raise ZeroDivisionError when
    one of the two groups is empty (the [1/n1 + 1/n2] on Python integers),
    once the pooled data exist and, for Dunn, have been ranked. *)
Theorem empty_group_raises_zero_division (group1 group2 : list num)
  (k : Z) (all_groups : list (list num)) :
  group1 = [] \/ group2 = [] ->
  all_groups <> [] ->
  tukey_hsd_pair S group1 group2 k all_groups
  = Raise (ZeroDivisionError "division by zero") /\
  (forall ranks,
     stats.rankdata S (List.concat all_groups) = Ok ranks ->
     dunn_test_pair S group1 group2 all_groups
     = Raise (ZeroDivisionError "division by zero")).
Proof.
  intros Hempty Hall.
  destruct all_groups as [|g0 gs]; [contradiction Hall; reflexivity|].
  split.
  - unfold tukey_hsd_pair. simpl np_concatenate. simpl bind.
    unfold int_truediv.
    destruct Hempty as [-> | ->]; simpl;
      [reflexivity | destruct (len group1 =? 0)%Z; reflexivity].
  - intros ranks Hranks.
    unfold dunn_test_pair, dunn_z. simpl np_concatenate. simpl bind.
    simpl List.concat in Hranks. rewrite Hranks. simpl bind.
    unfold dunn_mean_ranks, int_truediv.
    destruct Hempty as [-> | ->]; simpl;
      [reflexivity | destruct (len group1 =? 0)%Z; reflexivity].
Qed.

End EmptyGroups.

(** * The engine over the reals *)

Section RealArithmetic.

Local Open Scope R_scope.

Lemma Rltb_true (x y : R) : Rltb x y = true <-> x < y.
Proof. unfold Rltb. destruct (Rlt_dec x y); split; (discriminate || tauto). Qed.

Lemma Rleb_true (x y : R) : Rleb x y = true <-> x <= y.
Proof. unfold Rleb. destruct (Rle_dec x y); split; (discriminate || tauto). Qed.

Lemma Rltb_false (x y : R) : Rltb x y = false <-> y <= x.
Proof.
  unfold Rltb. destruct (Rlt_dec x y); split; intros Hxy;
    try discriminate; try reflexivity; lra.
Qed.

Lemma Rleb_false (x y : R) : Rleb x y = false <-> y < x.
Proof.
  unfold Rleb. destruct (Rle_dec x y); split; intros Hxy;
    try discriminate; try reflexivity; lra.
Qed.

(** [np.sum] over the reals. *)
Lemma np_sum_acc (l : list R) (acc : R) :
  fold_left Rplus l acc = acc + np_sum l.
Proof.
  unfold np_sum; simpl. revert acc.
  induction l as [|x l IH]; intros acc; simpl; [lra|].
  rewrite (IH (acc + x)), (IH (0 + x)). lra.
Qed.

Lemma np_sum_cons (x : R) (l : list R) : np_sum (x :: l) = x + np_sum l.
Proof. unfold np_sum at 1; simpl. rewrite np_sum_acc. lra. Qed.

Lemma np_sum_nil : np_sum (@nil R) = 0.
Proof. reflexivity. Qed.



Lemma np_sum_le (f g : R -> R) (l : list R) :
  (forall x, In x l -> f x <= g x) ->
  np_sum (map f l) <= np_sum (map g l).
Proof.
  induction l as [|x l IH]; intros Hl; simpl.
  - rewrite np_sum_nil. lra.
  - rewrite !np_sum_cons.
    pose proof (Hl x (or_introl eq_refl)).
    pose proof (IH (fun y Hy => Hl y (or_intror Hy))). lra.
Qed.



End RealArithmetic.

Section RealEffectSizes.

Local Open Scope R_scope.

Variable S : stats.t R.

Lemma magnitude4_cases (x s m l : R) :
  s <= m -> m <= l ->
  (Rabs x < s -> magnitude4 x s m l = "negligible"%string) /\
  (s <= Rabs x < m -> magnitude4 x s m l = "small"%string) /\
  (m <= Rabs x < l -> magnitude4 x s m l = "medium"%string) /\
  (l <= Rabs x -> magnitude4 x s m l = "large"%string).
Proof.
  intros Hsm Hml. unfold magnitude4; simpl; unfold Rleb.
  repeat split; intros Hx;
    destruct (Rle_dec s (Rabs x)); destruct (Rle_dec m (Rabs x));
    destruct (Rle_dec l (Rabs x)); try reflexivity; lra.
Qed.

Lemma magnitude3_cases (x : R) :
  (x < 6 / 100 -> magnitude3 x = "small"%string) /\
  (6 / 100 <= x < 14 / 100 -> magnitude3 x = "medium"%string) /\
  (14 / 100 <= x -> magnitude3 x = "large"%string).
Proof.
  unfold magnitude3, dec; simpl; unfold Rleb.
  repeat split; intros Hx;
    destruct (Rle_dec (6 / 100) x); destruct (Rle_dec (14 / 100) x);
    try reflexivity; lra.
Qed.

(** X10. The magnitude of Cohen's d (two-sample and one-sample) is read
    off |d| by the cut points 0.2, 0.5 and 0.8, and that of the
    rank-biserial r off |r| by 0.1, 0.3 and 0.5: the successive
    overwrites leave the label of the highest cut point reached, and
    "negligible" below the first. *)
Theorem four_level_magnitudes (group1 group2 : list R) :
  let cuts (x a b c : R) (magnitude : string) :=
    (Rabs x < a -> magnitude = "negligible"%string) /\
    (a <= Rabs x < b -> magnitude = "small"%string) /\
    (b <= Rabs x < c -> magnitude = "medium"%string) /\
    (c <= Rabs x -> magnitude = "large"%string) in
  cuts (Test.value (calculate_cohens_d group1 group2))
       (2 / 10) (5 / 10) (8 / 10)
       (Test.magnitude (calculate_cohens_d group1 group2)) /\
  cuts (Test.value (calculate_cohens_d_one_sample group1 0))
       (2 / 10) (5 / 10) (8 / 10)
       (Test.magnitude (calculate_cohens_d_one_sample group1 0)) /\
  (forall e, calculate_rank_biserial S group1 group2 = Ok e ->
     cuts (Test.value e) (1 / 10) (3 / 10) (5 / 10) (Test.magnitude e)).
Proof.
  intros cuts. unfold cuts. split; [|split].
  - apply magnitude4_cases; lra.
  - apply magnitude4_cases; lra.
  - intros e He. unfold calculate_rank_biserial in He.
    bind_inv He as up Hup. destruct up as [u p]. ok_inv He.
    apply magnitude4_cases; lra.
Qed.

(** X11. The magnitude of eta, omega and epsilon squared has three levels,
    read off the value itself (not its absolute value) by the cut points
    0.06 and 0.14; below 0.06, negative values included, it is "small". *)
Theorem three_level_magnitudes (groups : list (list R)) (stat : R) :
  let cuts (x : R) (magnitude : string) :=
    (x < 6 / 100 -> magnitude = "small"%string) /\
    (6 / 100 <= x < 14 / 100 -> magnitude = "medium"%string) /\
    (14 / 100 <= x -> magnitude = "large"%string) in
  (forall e, calculate_eta_squared groups stat = Ok e ->
     cuts (Test.value e) (Test.magnitude e)) /\
  (forall e, calculate_omega_squared S groups = Ok e ->
     cuts (Test.value e) (Test.magnitude e)) /\
  cuts (Test.value (calculate_epsilon_squared groups stat))
       (Test.magnitude (calculate_epsilon_squared groups stat)).
Proof.
  intros cuts. unfold cuts. split; [|split].
  - intros e He. unfold calculate_eta_squared in He.
    bind_inv He as all_data Hall. ok_inv He. apply magnitude3_cases.
  - intros e He. unfold calculate_omega_squared in He.
    bind_inv He as fp Hfp. destruct fp as [f p].
    bind_inv He as w Hw. ok_inv He. apply magnitude3_cases.
  - apply magnitude3_cases.
Qed.

(** X12. Omega squared is never negative, and it is below 1 when the F
    statistic it is computed from is non-negative, there are at least two
    groups and at least as many observations as groups. *)
Theorem omega_squared_range (groups : list (list R)) (e : Test.effect R)
  (f p : R) :
  calculate_omega_squared S groups = Ok e ->
  stats.f_oneway S groups = Ok (f, p) ->
  0 <= Test.value e /\
  (0 <= f -> (2 <= len groups)%Z ->
   (len groups <= fold_left Z.add (map len groups) 0)%Z ->
   Test.value e < 1).
Proof.
  unfold calculate_omega_squared. intros He Hf. rewrite Hf in He.
  simpl in He. bind_inv He as w Hw. ok_inv He. simpl.
  unfold omega_of in Hw. bind_inv Hw as ratio Hratio. ok_inv Hw.
  unfold py_max; simpl; unfold Rltb.
  match goal with
  | |- context [Rlt_dec 0 ?x] => set (omega := x); destruct (Rlt_dec 0 omega)
  end.
  - split; [lra|]. intros Hf0 Hk Hn.
    unfold int_truediv in Hratio.
    destruct (len groups - 1 =? 0)%Z eqn:Hz; [discriminate|].
    ok_inv Hratio. simpl in omega.
    set (n_total := fold_left Z.add (map len groups) 0%Z) in *.
    assert (Hnum : 1 <= IZR (n_total - len groups + 1))
      by (apply IZR_le; lia).
    assert (Hden : 1 <= IZR (len groups - 1)) by (apply IZR_le; lia).
    assert (Hratio : 0 < IZR (n_total - len groups + 1)
                         / IZR (len groups - 1)).
    { apply Rdiv_lt_0_compat; lra. }
    unfold omega.
    apply (Rmult_lt_reg_r
             (f + IZR (n_total - len groups + 1) / IZR (len groups - 1)));
      [lra|].
    unfold Rdiv at 1. rewrite Rmult_assoc, Rinv_l by lra. lra.
  - split; [lra|]. intros; lra.
Qed.

End RealEffectSizes.

Section TukeyInterval.

Context {num : Type} `{Number num}.
Variable S : stats.t num.

Local Open Scope num_scope.


End TukeyInterval.

Section RealPostHoc.

Local Open Scope R_scope.

Variable S : stats.t R.
Variable self : StatisticsEngine R.


(** X14. A comparison is flagged significant exactly when its raw p-value
    is below the reported [bonferroni_alpha] (for a significance level not
    above 1): comparing the capped adjusted p-value with alpha is the same
    decision as comparing the raw one with alpha / C. *)
Theorem significant_iff_raw_below_bonferroni_alpha
  (groups : list (list R)) (labels : list string) (test_type : string)
  (is_normal equal_variance : bool) (r : PostHoc.t R)
  (c : PostHoc.comparison R) :
  significance_level self <= 1 ->
  perform_post_hoc S self groups labels test_type is_normal equal_variance
    = Ok r ->
  In c (PostHoc.comparisons r) ->
  (PostHoc.significant c = true <->
   PostHoc.p_value c < PostHoc.bonferroni_alpha r).
Proof.
  intros Halpha Hr Hc.
  apply perform_post_hoc_Ok in Hr. destruct Hr as [Hall Hbonf].
  destruct (Hall c Hc)
    as (i & j & g1 & g2 & l1 & l2 & res & m & Hij & _ & _ & _ & _ & _ & ->).
  simpl. rewrite Hbonf. simpl.
  set (C := n_comparisons_of groups).
  assert (HC : 1 <= C).
  { unfold C, n_comparisons_of; simpl.
    assert (Hk : (2 <= len groups * (len groups - 1))%Z)
      by (unfold len; nia).
    apply IZR_le in Hk. lra. }
  rewrite py_min_Rmin. fold (Rltb (Rmin (Pair.p_value res * C) 1)
                                  (significance_level self)).
  rewrite Rltb_true.
  set (p := Pair.p_value res). set (alpha := significance_level self) in *.
  assert (Hdiv : p < alpha / C <-> p * C < alpha).
  { split; intros Hp.
    - apply (Rmult_lt_compat_r C) in Hp; [|lra].
      unfold Rdiv in Hp. rewrite Rmult_assoc, Rinv_l in Hp by lra. lra.
    - apply (Rmult_lt_reg_r C); [lra|].
      unfold Rdiv. rewrite Rmult_assoc, Rinv_l by lra. lra. }
  change (IZR (len groups * (len groups - 1)) / 2) with C.
  rewrite Hdiv. unfold Rmin.
  destruct (Rle_dec (p * C) 1); split; intros Hp; lra.
Qed.

End RealPostHoc.

Section RealTwoGroups.

Local Open Scope R_scope.

Variable S : stats.t R.
Variable self : StatisticsEngine R.

(** X15. The rank-biserial r of two non-empty groups lies in [[-1, 1]]
    whenever the U statistic that [stats.mannwhitneyu] returns lies
    between 0 and n1 n2. *)
Theorem rank_biserial_range (group1 group2 : list R) (e : Test.effect R)
  (u p : R) :
  group1 <> [] -> group2 <> [] ->
  stats.mannwhitneyu S group1 group2 None = Ok (u, p) ->
  0 <= u <= IZR (len group1 * len group2) ->
  calculate_rank_biserial S group1 group2 = Ok e ->
  -1 <= Test.value e <= 1.
Proof.
  intros H1 H2 Hu Hrange He. unfold calculate_rank_biserial in He.
  rewrite Hu in He. simpl in He. ok_inv He. simpl.
  assert (Hn : 1 <= IZR (len group1 * len group2)).
  { apply IZR_le. unfold len.
    destruct group1; [contradiction H1; reflexivity|].
    destruct group2; [contradiction H2; reflexivity|].
    simpl length. nia. }
  set (n := IZR (len group1 * len group2)) in *.
  assert (Hq : 0 <= 2 * u / n <= 2).
  { split.
    - apply Rdiv_nonneg; lra.
    - apply (Rmult_le_reg_r n); [lra|].
      unfold Rdiv. rewrite Rmult_assoc, Rinv_l by lra. lra. }
  lra.
Qed.

(** X16. Cohen's d is antisymmetric in its two groups: swapping them
    negates the value and keeps the magnitude. *)
Theorem cohens_d_antisymmetric (group1 group2 : list R) :
  Test.value (calculate_cohens_d group2 group1)
  = - Test.value (calculate_cohens_d group1 group2) /\
  Test.magnitude (calculate_cohens_d group2 group1)
  = Test.magnitude (calculate_cohens_d group1 group2).
Proof.
  unfold calculate_cohens_d. cbv zeta. cbn [Test.value Test.magnitude].
  set (m1 := np_mean group1). set (m2 := np_mean group2).
  set (v1 := np_var group1 1). set (v2 := np_var group2 1).
  replace (len group2 + len group1 - 2)%Z
    with (len group1 + len group2 - 2)%Z by lia.
  set (n := of_Z (len group1 + len group2 - 2)).
  set (n1 := of_Z (len group1 - 1)). set (n2 := of_Z (len group2 - 1)).
  clearbody m1 m2 v1 v2 n n1 n2. simpl.
  replace (n2 * v2 + n1 * v1) with (n1 * v1 + n2 * v2) by lra.
  set (s := R_sqrt.sqrt ((n1 * v1 + n2 * v2) / n)). clearbody s.
  assert (Hv : (m2 - m1) / s = - ((m1 - m2) / s)) by (unfold Rdiv; lra).
  split; [exact Hv|].
  rewrite Hv. unfold magnitude4; simpl. rewrite Rabs_Ropp. reflexivity.
Qed.


End RealTwoGroups.

Section RealAnova.

Local Open Scope R_scope.









End RealAnova.

Section DescriptiveFields.

Context {num : Type} `{Number num}.
Variable S : stats.t num.
Variable N : np.t num.
Variable self : StatisticsEngine num.

Local Open Scope num_scope.


End DescriptiveFields.

Section RealDescriptive.

Local Open Scope R_scope.

Variable S : stats.t R.
Variable N : np.t R.
Variable self : StatisticsEngine R.


End RealDescriptive.

(** * The further properties at concrete requests *)

Lemma test_follows_decision_table_witness :
  exists a,
    analyze unequal_variance_stats stand_in_np __init__ sample_data
      = Success a /\
    Test.test_type (test a)
    = selected_test (length (groups sample_data))
                    (Normality.all_normal (normality a))
                    (Homogeneity.equal_variance (homogeneity a)).
Proof.
  assert (Ha : exists a,
             analyze unequal_variance_stats stand_in_np __init__ sample_data
             = Success a).
  { eexists. vm_compute; reflexivity. }
  destruct Ha as (a & Ha). exists a. split; [exact Ha|].
  exact (proj1 (@test_follows_decision_table float _ unequal_variance_stats
                  stand_in_np __init__ sample_data a Ha)).
Defined.

Lemma post_hoc_enumerates_pairs_witness :
  exists r,
    perform_post_hoc unequal_variance_stats __init__ (groups sample_data)
                     ["A"; "B"; "C"]%string "Welch's ANOVA" true false
      = Ok r /\
    Forall2 (pair_entry (groups sample_data) ["A"; "B"; "C"]%string)
            (pairs (length (groups sample_data)))
            (PostHoc.comparisons r) /\
    post_hoc_method_of "Welch's ANOVA" false = Some (PostHoc.method r).
Proof.
  assert (Hr : exists r,
             perform_post_hoc unequal_variance_stats __init__
               (groups sample_data) ["A"; "B"; "C"]%string "Welch's ANOVA"
               true false = Ok r).
  { eexists. vm_compute; reflexivity. }
  destruct Hr as (r & Hr). exists r. split; [exact Hr|].
  destruct (@post_hoc_enumerates_pairs float _ unequal_variance_stats
              __init__ (groups sample_data) ["A"; "B"; "C"]%string
              "Welch's ANOVA" false true r Hr) as (Hall & Hm & _).
  split; assumption.
Defined.

Lemma post_hoc_without_comparison_raises_witness :
  ((length (groups sample_data) < 2)%nat \/
   (post_hoc_method_of "Independent t-test" true = None /\
    (length (groups sample_data) <= length ["A"; "B"; "C"]%string)%nat)) /\
  perform_post_hoc unequal_variance_stats __init__ (groups sample_data)
                   ["A"; "B"; "C"]%string "Independent t-test" true true
  = Raise (UnboundLocalError
             "cannot access local variable 'method' where it is not associated with a value").
Proof.
  assert (Hpre : (length (groups sample_data) < 2)%nat \/
                 (post_hoc_method_of "Independent t-test" true = None /\
                  (length (groups sample_data)
                   <= length ["A"; "B"; "C"]%string)%nat)).
  { right. split; [reflexivity | simpl; lia]. }
  split; [exact Hpre|].
  exact (@post_hoc_without_comparison_raises float _ unequal_variance_stats
           __init__ (groups sample_data) ["A"; "B"; "C"]%string
           "Independent t-test" true true Hpre).
Defined.

Lemma post_hoc_needs_a_label_per_group_witness :
  (2 <= length (groups sample_data))%nat /\
  (length ["A"%string] < length (groups sample_data))%nat /\
  ~ (exists r,
       perform_post_hoc unequal_variance_stats __init__ (groups sample_data)
                        ["A"%string] "Welch's ANOVA" true false = Ok r).
Proof.
  split; [simpl; lia|]. split; [simpl; lia|].
  intros [r Hr]. revert Hr.
  apply (@post_hoc_needs_a_label_per_group float _ unequal_variance_stats
           __init__ (groups sample_data) ["A"%string] "Welch's ANOVA" false
           true r); simpl; lia.
Defined.

Lemma normality_entries_follow_samples_witness :
  exists r,
    test_normality unequal_variance_stats __init__ (groups sample_data)
                   ["A"; "B"; "C"]%string = Ok r /\
    Normality.all_normal r
    = forallb (@Normality.is_normal float) (Normality.results r).
Proof.
  assert (Hr : exists r,
             test_normality unequal_variance_stats __init__
               (groups sample_data) ["A"; "B"; "C"]%string = Ok r).
  { eexists. vm_compute; reflexivity. }
  destruct Hr as (r & Hr). exists r. split; [exact Hr|].
  exact (proj2 (@normality_entries_follow_samples float _
                  unequal_variance_stats __init__ (groups sample_data)
                  ["A"; "B"; "C"]%string r Hr)).
Defined.

Lemma entries_follow_labels_witness :
  exists a,
    analyze unequal_variance_stats stand_in_np __init__ sample_data
      = Success a /\
    map (@Descriptive.label float) (descriptive a)
    = firstn (length (groups sample_data)) (request_labels sample_data).
Proof.
  assert (Ha : exists a,
             analyze unequal_variance_stats stand_in_np __init__ sample_data
             = Success a).
  { eexists. vm_compute; reflexivity. }
  destruct Ha as (a & Ha). exists a. split; [exact Ha|].
  exact (proj1 (@entries_follow_labels float _ unequal_variance_stats
                  stand_in_np __init__ sample_data a Ha)).
Defined.

Lemma no_group_fails_witness :
  groups no_groups = [] /\
  success (analyze unequal_variance_stats stand_in_np __init__ no_groups)
  = false.
Proof.
  split; [reflexivity|].
  exact (@no_group_fails float _ unequal_variance_stats stand_in_np __init__
           no_groups eq_refl).
Defined.

Lemma post_hoc_method_by_branch_witness :
  exists a r,
    analyze unequal_variance_stats stand_in_np __init__ sample_data
      = Success a /\
    post_hoc a = Some r /\
    PostHoc.method r
    = selected_post_hoc (Normality.all_normal (normality a))
                        (Homogeneity.equal_variance (homogeneity a)) /\
    (3 <= length (PostHoc.comparisons r))%nat.
Proof.
  assert (Ha : exists a r,
             analyze unequal_variance_stats stand_in_np __init__ sample_data
             = Success a /\ post_hoc a = Some r).
  { eexists. eexists. split; [vm_compute; reflexivity | reflexivity]. }
  destruct Ha as (a & r & Ha & Hr). exists a, r.
  split; [exact Ha|]. split; [exact Hr|].
  destruct (@post_hoc_method_by_branch float _ unequal_variance_stats
              stand_in_np __init__ sample_data a r Ha Hr) as (Hm & Hc & _).
  split; assumption.
Defined.

Lemma empty_group_raises_zero_division_witness :
  (@nil float = [] \/ two_observations = []) /\
  tukey_groups <> [] /\
  tukey_hsd_pair unequal_variance_stats [] two_observations 3 tukey_groups
  = Raise (ZeroDivisionError "division by zero").
Proof.
  assert (Hne : tukey_groups <> []) by (unfold tukey_groups; discriminate).
  split; [left; reflexivity|]. split; [exact Hne|].
  exact (proj1 (@empty_group_raises_zero_division float _
                  unequal_variance_stats [] two_observations 3 tukey_groups
                  (or_introl eq_refl) Hne)).
Defined.

Local Open Scope R_scope.

Lemma omega_squared_range_witness :
  exists e,
    calculate_omega_squared real_stats real_groups = Ok e /\
    stats.f_oneway real_stats real_groups
      = Ok (anova_F real_groups, 1 / 100) /\
    0 <= Test.value e.
Proof.
  assert (He : exists e, calculate_omega_squared real_stats real_groups = Ok e).
  { eexists. reflexivity. }
  destruct He as (e & He). exists e. split; [exact He|].
  split; [reflexivity|].
  exact (proj1 (@omega_squared_range real_stats real_groups e
                  (anova_F real_groups) (1 / 100) He eq_refl)).
Defined.


Lemma significant_iff_raw_below_bonferroni_alpha_witness :
  significance_level (@__init__ R _) <= 1 /\
  exists r c,
    perform_post_hoc real_stats __init__ real_groups ["A"; "B"; "C"]%string
                     "Welch's ANOVA" true false = Ok r /\
    In c (PostHoc.comparisons r) /\
    (PostHoc.significant c = true <->
     PostHoc.p_value c < PostHoc.bonferroni_alpha r).
Proof.
  assert (Halpha : significance_level (@__init__ R _) <= 1)
    by (unfold __init__, dec; simpl; lra).
  split; [exact Halpha|].
  destruct real_post_hoc_runs as (r & c & Hr & Hc).
  exists r, c. split; [exact Hr|]. split; [exact Hc|].
  exact (@significant_iff_raw_below_bonferroni_alpha real_stats __init__
           real_groups ["A"; "B"; "C"]%string "Welch's ANOVA" true false
           r c Halpha Hr Hc).
Defined.

Lemma rank_biserial_range_witness :
  real_group1 <> [] /\ real_group2 <> [] /\
  exists e,
    calculate_rank_biserial real_stats real_group1 real_group2 = Ok e /\
    -1 <= Test.value e <= 1.
Proof.
  assert (H1 : real_group1 <> []) by (unfold real_group1; discriminate).
  assert (H2 : real_group2 <> []) by (unfold real_group2; discriminate).
  split; [exact H1|]. split; [exact H2|].
  assert (He : exists e,
             calculate_rank_biserial real_stats real_group1 real_group2
             = Ok e).
  { eexists. reflexivity. }
  destruct He as (e & He). exists e. split; [exact He|].
  apply (@rank_biserial_range real_stats real_group1 real_group2 e
           1 (1 / 100) H1 H2 eq_refl); [|exact He].
  unfold real_group1, real_group2, len; simpl. lra.
Defined.



